(** * The user service: registration and lookup handlers

    A shallow embedding of the Go user-management microservice: the request and
    record types of package [models], the [Database] interface and its MongoDB
    implementation of package [configs], and the gin handlers [CreateUser],
    [FindById], [GetUsers] and [FindByEmail] of package [controllers].

    Go values are modelled as follows.
    - [string] is a byte string ([String.string]); [len] is [String.length].
    - [primitive.ObjectID], a [[12]byte], is the 96-bit number its bytes spell in
      big-endian order.
    - A Go result pair [(v, err)] is a Rocq pair whose second component is an
      [option error] ([None] for [nil]); a pointer result is an [option].
    - A handler runs in a state monad over a [World]: the store behind the
      [Database] interface, the log of calls made to collaborators and the log
      of what was written to the HTTP response.
    Logging (zerolog) and the per-request timeout context are not modelled. *)

From Stdlib Require Import List String Ascii NArith ZArith Bool Lia.
Import ListNotations.
Local Open Scope string_scope.

(** ** Errors *)

(** A [validator.FieldError]: the struct field that failed and the tag it
    failed on. *)
Record FieldError : Type := mkFieldError { Field : string; Tag : string }.

(** The Go [error] values that reach the handlers. *)
Inductive error : Type :=
| ErrInvalidHex                              (* primitive.ErrInvalidHex *)
| InvalidByteError (b : ascii)               (* hex.InvalidByteError *)
| ValidationErrors (errs : list FieldError)  (* validator.ValidationErrors *)
| ErrorString (msg : string).                (* errors.New, fmt.Errorf, driver errors *)

(** ** encoding/hex *)

Module hex.

(** [fromHexChar]: the value of one hexadecimal digit, either case. *)
Definition fromHexChar (c : ascii) : option N :=
  let n := N_of_ascii c in
  if (48 <=? n)%N && (n <=? 57)%N then Some (n - 48)%N
  else if (97 <=? n)%N && (n <=? 102)%N then Some (n - 97 + 10)%N
  else if (65 <=? n)%N && (n <=? 70)%N then Some (n - 65 + 10)%N
  else None.

(** [Decode], reading the digits left to right into a big-endian number; the
    first byte that is not a digit is reported. *)
Fixpoint Decode (s : string) (acc : N) : N + error :=
  match s with
  | EmptyString => inl acc
  | String c rest =>
      match fromHexChar c with
      | Some d => Decode rest (acc * 16 + d)%N
      | None => inr (InvalidByteError c)
      end
  end.

Definition hextable : list ascii := list_ascii_of_string "0123456789abcdef".

(** The [k] low hexadecimal digits of [n], most significant first. *)
Fixpoint Encode (k : nat) (n : N) : string :=
  match k with
  | O => EmptyString
  | S k' =>
      Encode k' (n / 16)%N
        ++ String (nth (N.to_nat (n mod 16)%N) hextable "0"%char) EmptyString
  end.

End hex.

(** ** bson/primitive *)

Module primitive.

(** Modelled from the spec: the identifier codec. [ObjectID] and
    [ObjectIDFromHex] belong to the MongoDB driver, which the handlers import;
    the codec accepts only the canonical representation, a token of exactly 24
    hexadecimal digits, and fails on any other shape. *)
Definition ObjectID : Type := N.

Definition NilObjectID : ObjectID := 0%N.

Definition ObjectIDFromHex (s : string) : ObjectID * option error :=
  if Nat.eqb (String.length s) 24 then
    match hex.Decode s 0%N with
    | inl oid => (oid, None)
    | inr err => (NilObjectID, Some err)
    end
  else (NilObjectID, Some ErrInvalidHex).

(** [id.Hex()]: the 24 lower-case digits of the identifier. *)
Definition Hex (id : ObjectID) : string := hex.Encode 24 id.

End primitive.

(** ** Package models *)

Module models.

Module User.
Record t : Type := mk {
  Id : string;
  Name : string;
  Password : string;
  Email : string;
  Role : string;
  Company : string;
  Invitation : bool
}.

(** The assignment [user.Id = id]. *)
Definition setId (user : t) (id : string) : t :=
  mk id (Name user) (Password user) (Email user) (Role user) (Company user)
     (Invitation user).
End User.

Module UserWithCompanyAsObject.
Record t : Type := mk {
  Id : primitive.ObjectID;
  Name : string;
  Password : string;
  Email : string;
  Role : string;
  Company : primitive.ObjectID
}.

(** The assignment [user.Password = password]. *)
Definition setPassword (user : t) (password : string) : t :=
  mk (Id user) (Name user) password (Email user) (Role user) (Company user).

(** The assignment [user.Id = id]. *)
Definition setId (user : t) (id : primitive.ObjectID) : t :=
  mk id (Name user) (Password user) (Email user) (Role user) (Company user).
End UserWithCompanyAsObject.

End models.

Abbreviation User := models.User.t.
Abbreviation UserWithCompanyAsObject := models.UserWithCompanyAsObject.t.

(** ** validator *)

Module validator.

(** The tag [validate:"required"] on a string field: the field fails when it
    holds the zero value, the empty string. *)
Definition required (field value : string) : list FieldError :=
  if String.eqb value "" then [mkFieldError field "required"] else [].

(** Modelled from the spec: [validate.Struct(&user)] of the validator library,
    which is not among the sources. It checks the presence of name, password,
    email, role and company, the fields of [models.User] tagged [required], in
    declaration order, and returns one aggregated error that lists every
    missing field. *)
Definition Struct (user : User) : option error :=
  match
    (required "Name" (models.User.Name user)
       ++ required "Password" (models.User.Password user)
       ++ required "Email" (models.User.Email user)
       ++ required "Role" (models.User.Role user)
       ++ required "Company" (models.User.Company user))%list
  with
  | [] => None
  | errs => Some (ValidationErrors errs)
  end.

End validator.

(** ** net/http status codes *)

Module http.
Definition StatusOK : Z := 200.
Definition StatusCreated : Z := 201.
Definition StatusBadRequest : Z := 400.
Definition StatusInternalServerError : Z := 500.
End http.

(** ** Package responses *)

Module responses.

(** What the handlers store under a key of [Data], a
    [map[string]interface{}]. *)
Inductive Value : Type :=
| VString (s : string)
| VError (err : error)                                  (* err.Error() *)
| VUser (user : User)                                   (* models.User *)
| VStoredUser (user : option UserWithCompanyAsObject)   (* *models.UserWithCompanyAsObject *)
| VUsers (users : list UserWithCompanyAsObject).        (* []*models.UserWithCompanyAsObject *)

(** Modelled from the spec: the response envelope [responses.UserResponse],
    whose declaration is not among the sources: a status, a message and a
    data map, [{status, message, data}]. A [nil] map is the empty list. *)
Record UserResponse : Type := mkUserResponse {
  Status : Z;
  Message : string;
  Data : list (string * Value)
}.

End responses.

(** ** Package configs: the store *)

(** The MongoDB driver, as far as the store uses it. *)
Module mongo.

(** The three filters the store builds: [{"_id": id}], [{"email": email}] and
    [{"company": companyId}]. *)
Inductive Filter : Type :=
| FilterId (id : primitive.ObjectID)
| FilterEmail (email : string)
| FilterCompany (companyId : primitive.ObjectID).

(** A result cursor: for each document [Next] advances to, what [Decode]
    yields on it, and the error [Err] reports once [Next] has returned false. *)
Record Cursor : Type := mkCursor {
  documents : list (UserWithCompanyAsObject + error);
  Err : option error
}.

(** A [*mongo.Collection] over a store of type [St]. [InsertOne] yields the
    inserted identifier or an error; [FindOne] stands for
    [FindOne(ctx, filter).Decode(&user)]; [Find] yields a cursor pointer and
    an error. *)
Record Collection (St : Type) : Type := mkCollection {
  InsertOne : UserWithCompanyAsObject -> St -> (primitive.ObjectID + error) * St;
  FindOne : Filter -> St -> UserWithCompanyAsObject + error;
  Find : Filter -> St -> option Cursor * option error
}.

Arguments InsertOne {St}.
Arguments FindOne {St}.
Arguments Find {St}.

Definition ErrNoDocuments : error := ErrorString "mongo: no documents in result".

End mongo.

Module configs.

(** The [Database] interface. Every method may change the store it runs
    against, as an implementation (a test double, say) is free to. *)
Record Database (St : Type) : Type := mkDatabase {
  CreateUser :
    UserWithCompanyAsObject -> St -> (primitive.ObjectID * option error) * St;
  FindUserByID :
    primitive.ObjectID -> St
    -> (option UserWithCompanyAsObject * option error) * St;
  FindUserByEmail :
    string -> St -> (option UserWithCompanyAsObject * option error) * St;
  FindAllUsers :
    primitive.ObjectID -> St
    -> (list UserWithCompanyAsObject * option error) * St
}.

Arguments CreateUser {St}.
Arguments FindUserByID {St}.
Arguments FindUserByEmail {St}.
Arguments FindAllUsers {St}.

Section MongoDB.

Context {St : Type}.
Variable userCollection : mongo.Collection St.

(** The method [CreateUser] of [MongoDB]. *)
Definition MongoDB_CreateUser (user : UserWithCompanyAsObject) (st : St)
  : (primitive.ObjectID * option error) * St :=
  match mongo.InsertOne userCollection user st with
  | (inr err, st') => ((primitive.NilObjectID, Some err), st')
  | (inl insertedID, st') => ((insertedID, None), st')
  end.

(** The method [FindUserByID] of [MongoDB]. *)
Definition MongoDB_FindUserByID (id : primitive.ObjectID) (st : St)
  : (option UserWithCompanyAsObject * option error) * St :=
  match mongo.FindOne userCollection (mongo.FilterId id) st with
  | inr err => ((None, Some err), st)
  | inl user => ((Some user, None), st)
  end.

(** The method [FindUserByEmail] of [MongoDB]. *)
Definition MongoDB_FindUserByEmail (email : string) (st : St)
  : (option UserWithCompanyAsObject * option error) * St :=
  match mongo.FindOne userCollection (mongo.FilterEmail email) st with
  | inr err => ((None, Some err), st)
  | inl user => ((Some user, None), st)
  end.

(** The loop of [FindAllUsers] over the cursor: each document is decoded into
    a fresh [user], its password is cleared and it is appended to [users]; a
    decoding error ends the loop. *)
Fixpoint decodeUsers (documents : list (UserWithCompanyAsObject + error))
    (users : list UserWithCompanyAsObject)
  : list UserWithCompanyAsObject + error :=
  match documents with
  | [] => inl users
  | inr err :: _ => inr err
  | inl user :: rest =>
      decodeUsers rest
        (users ++ [models.UserWithCompanyAsObject.setPassword user ""])
  end.

(** The method [FindAllUsers] of [MongoDB]. *)
Definition MongoDB_FindAllUsers (companyId : primitive.ObjectID) (st : St)
  : (list UserWithCompanyAsObject * option error) * St :=
  match mongo.Find userCollection (mongo.FilterCompany companyId) st with
  | (_, Some err) => (([], Some err), st)
  | (None, None) => (([], None), st)
  | (Some cursor, None) =>
      match decodeUsers (mongo.documents cursor) [] with
      | inr err => (([], Some err), st)
      | inl users =>
          match mongo.Err cursor with
          | Some err => (([], Some err), st)
          | None => ((users, None), st)
          end
      end
  end.

(** [NewMongoDB]: the store as an implementation of [Database]. *)
Definition NewMongoDB : Database St :=
  mkDatabase St MongoDB_CreateUser MongoDB_FindUserByID MongoDB_FindUserByEmail
    MongoDB_FindAllUsers.

End MongoDB.

End configs.

(** ** The world a handler runs in *)

(** A call to a collaborator: a method of the [Database] interface, or [Do] of
    the [HTTPClient] interface held in [Client], through which a company would
    be provisioned on the sibling service. *)
Inductive Call : Type :=
| CallCreateUser (user : UserWithCompanyAsObject)
| CallFindUserByID (id : primitive.ObjectID)
| CallFindUserByEmail (email : string)
| CallFindAllUsers (companyId : primitive.ObjectID)
| CallClientDo (method url body : string).

(** What reaches the HTTP response: the status that gin's bind layer writes
    when it aborts, or a [c.JSON(code, obj)] of a handler. *)
Inductive Written : Type :=
| AbortWithError (code : Z) (err : error)
| JSON (code : Z) (obj : responses.UserResponse).

Record World (St : Type) : Type := mkWorld {
  store : St;
  calls : list Call;
  written : list Written
}.

Arguments mkWorld {St}.
Arguments store {St}.
Arguments calls {St}.
Arguments written {St}.

(** The world at the start of a request. *)
Definition start {St : Type} (st : St) : World St := mkWorld st [] [].

(** Handlers are state transformers over the world. *)
Definition Handler (St A : Type) : Type := World St -> A * World St.

Definition ret {St A : Type} (a : A) : Handler St A := fun w => (a, w).

Definition bind {St A B : Type} (m : Handler St A) (k : A -> Handler St B)
  : Handler St B :=
  fun w => let (a, w') := m w in k a w'.

Declare Scope handler_scope.
Delimit Scope handler_scope with handler.
Notation "x <- m ;; k" := (bind m (fun x => k))
  (at level 100, m at next level, right associativity) : handler_scope.

(** The world a handler leaves behind. *)
Definition run {St : Type} (h : Handler St unit) (w : World St) : World St :=
  snd (h w).

(** A call of a [Database] method: it runs against the store and is logged. *)
Definition call {St A : Type} (c : Call) (method : St -> A * St)
  : Handler St A :=
  fun w =>
    let (a, st') := method (store w) in
    (a, mkWorld st' (calls w ++ [c]) (written w)).

(** ** gin *)

Module gin.

(** The request as the handlers read it: what binding the body to a
    [models.User] gives, the path parameters and the query parameters ([Query]
    yields the empty string for an absent key). *)
Record Context : Type := mkContext {
  body : User + error;
  Param : string -> string;
  Query : string -> string
}.

(** [c.BindJSON(&user)]: on a body that does not bind, gin itself aborts the
    request with status 400 before returning the error. *)
Definition BindJSON {St : Type} (c : Context) : Handler St (User + error) :=
  fun w =>
    match body c with
    | inl user => (inl user, w)
    | inr err =>
        (inr err,
         mkWorld (store w) (calls w)
           (written w ++ [AbortWithError http.StatusBadRequest err]))
    end.

(** [c.JSON(code, obj)]. *)
Definition JSON {St : Type} (code : Z) (obj : responses.UserResponse)
  : Handler St unit :=
  fun w => (tt, mkWorld (store w) (calls w) (written w ++ [JSON code obj])).

End gin.

(** ** Package controllers *)

Module controllers.

Import responses.
Local Open Scope handler_scope.

(** [ValidateRequest]: the validator's verdict is passed on unchanged. *)
Definition ValidateRequest (user : User) (c : gin.Context) : option error :=
  match validator.Struct user with
  | Some validationErr => Some validationErr
  | None => None
  end.

Section Handlers.

Context {St : Type}.
Variable DB : configs.Database St.

(** The handler [CreateUser] returns. *)
Definition CreateUser (c : gin.Context) : Handler St unit :=
  bound <- gin.BindJSON c ;;
  match bound with
  | inr _ => ret tt
  | inl user =>
  match ValidateRequest user c with
  | Some err =>
      gin.JSON http.StatusBadRequest
        (mkUserResponse http.StatusBadRequest "validation error"
           [("data", VError err)])
  | None =>
  found <- call (CallFindUserByEmail (models.User.Email user))
             (configs.FindUserByEmail DB (models.User.Email user)) ;;
  match fst found with
  | Some existing =>
      (* inside the [if], [user] is the record that was found *)
      gin.JSON http.StatusBadRequest
        (mkUserResponse http.StatusBadRequest
           ("User already exists with email: "
              ++ models.UserWithCompanyAsObject.Email existing)
           [("data",
             VString ("User already exists with email: "
                        ++ models.UserWithCompanyAsObject.Email existing))])
  | None =>
  let (companyIdObject, err2) :=
    primitive.ObjectIDFromHex (models.User.Company user) in
  match err2 with
  | Some err2 =>
      gin.JSON http.StatusInternalServerError
        (mkUserResponse http.StatusInternalServerError
           "error on companyId as an object" [("data", VError err2)])
  | None =>
  let userWithCompany :=
    models.UserWithCompanyAsObject.mk primitive.NilObjectID
      (models.User.Name user) (models.User.Password user)
      (models.User.Email user) (models.User.Role user) companyIdObject in
  created <- call (CallCreateUser userWithCompany)
               (configs.CreateUser DB userWithCompany) ;;
  match snd created with
  | Some err =>
      gin.JSON http.StatusInternalServerError
        (mkUserResponse http.StatusInternalServerError
           "error storing user on database" [("data", VError err)])
  | None =>
      let user := models.User.setId user (primitive.Hex (fst created)) in
      gin.JSON http.StatusCreated
        (mkUserResponse http.StatusCreated "success" [("user", VUser user)])
  end end end end end.

(** The handler [FindById] returns. *)
Definition FindById (c : gin.Context) : Handler St unit :=
  let userId := gin.Param c "userId" in
  let objId := fst (primitive.ObjectIDFromHex userId) in
  found <- call (CallFindUserByID objId) (configs.FindUserByID DB objId) ;;
  match snd found with
  | Some err =>
      gin.JSON http.StatusInternalServerError
        (mkUserResponse http.StatusInternalServerError
           "Error getting a user from database" [("data", VError err)])
  | None =>
      gin.JSON http.StatusOK
        (mkUserResponse http.StatusOK "success"
           [("user", VStoredUser (fst found))])
  end.

(** [FindByEmail]. *)
Definition FindByEmail (c : gin.Context) (email : string) : Handler St unit :=
  found <- call (CallFindUserByEmail email) (configs.FindUserByEmail DB email) ;;
  match snd found with
  | Some err =>
      gin.JSON http.StatusInternalServerError
        (mkUserResponse http.StatusInternalServerError
           "Error getting a user from database with provided email"
           [("data", VError err)])
  | None =>
      gin.JSON http.StatusOK
        (mkUserResponse http.StatusOK "success"
           [("user", VStoredUser (fst found))])
  end.

(** The handler [GetUsers] returns. *)
Definition GetUsers (c : gin.Context) : Handler St unit :=
  let email := gin.Query c "email" in
  if negb (String.eqb email "") then FindByEmail c email
  else
  let companyId := gin.Query c "company" in
  if String.eqb companyId "" || String.eqb companyId "undefined" then
    gin.JSON http.StatusBadRequest
      (mkUserResponse http.StatusBadRequest
         "Error getting user for a company, Company query parameter is missing"
         [])
  else
  let objId := fst (primitive.ObjectIDFromHex companyId) in
  found <- call (CallFindAllUsers objId) (configs.FindAllUsers DB objId) ;;
  match snd found with
  | Some err =>
      gin.JSON http.StatusInternalServerError
        (mkUserResponse http.StatusInternalServerError
           "There was a problem trying to find users on database" [])
  | None =>
      gin.JSON http.StatusOK
        (mkUserResponse http.StatusOK "success" [("users", VUsers (fst found))])
  end.

End Handlers.

End controllers.

(** ** Test doubles *)

(** [MockDB] of the controller tests: each method runs the function it was
    given, or returns zero values when it was given none. It keeps no state. *)
Module MockDB.

Record t : Type := mk {
  CreateUserFunc :
    option (UserWithCompanyAsObject -> primitive.ObjectID * option error);
  FindUserByIDFunc :
    option (primitive.ObjectID
            -> option UserWithCompanyAsObject * option error);
  FindUserByEmailFunc :
    option (string -> option UserWithCompanyAsObject * option error);
  FindAllUsersFunc :
    option (primitive.ObjectID
            -> list UserWithCompanyAsObject * option error)
}.

Definition CreateUser (db : t) (user : UserWithCompanyAsObject) (st : unit)
  : (primitive.ObjectID * option error) * unit :=
  match CreateUserFunc db with
  | Some f => (f user, st)
  | None => ((primitive.NilObjectID, None), st)
  end.

Definition FindUserByID (db : t) (id : primitive.ObjectID) (st : unit)
  : (option UserWithCompanyAsObject * option error) * unit :=
  match FindUserByIDFunc db with
  | Some f => (f id, st)
  | None => ((None, None), st)
  end.

Definition FindUserByEmail (db : t) (email : string) (st : unit)
  : (option UserWithCompanyAsObject * option error) * unit :=
  match FindUserByEmailFunc db with
  | Some f => (f email, st)
  | None => ((None, None), st)
  end.

Definition FindAllUsers (db : t) (companyId : primitive.ObjectID) (st : unit)
  : (list UserWithCompanyAsObject * option error) * unit :=
  match FindAllUsersFunc db with
  | Some f => (f companyId, st)
  | None => (([], None), st)
  end.

Definition database (db : t) : configs.Database unit :=
  configs.mkDatabase unit (CreateUser db) (FindUserByID db)
    (FindUserByEmail db) (FindAllUsers db).

End MockDB.

(** A collection held in memory, standing for the document store behind the
    driver: the documents in insertion order and a counter from which
    identifiers are drawn. No operation fails except a [FindOne] that matches
    nothing. *)
Module memory.

Record Store : Type := mkStore {
  docs : list UserWithCompanyAsObject;
  next : primitive.ObjectID
}.

Definition matches (filter : mongo.Filter) (doc : UserWithCompanyAsObject)
  : bool :=
  match filter with
  | mongo.FilterId id => N.eqb (models.UserWithCompanyAsObject.Id doc) id
  | mongo.FilterEmail email =>
      String.eqb (models.UserWithCompanyAsObject.Email doc) email
  | mongo.FilterCompany companyId =>
      N.eqb (models.UserWithCompanyAsObject.Company doc) companyId
  end.

(** A document whose [_id] is the zero value is sent without one
    ([omitempty]) and is given the next identifier. *)
Definition InsertOne (doc : UserWithCompanyAsObject) (st : Store)
  : (primitive.ObjectID + error) * Store :=
  let id :=
    if N.eqb (models.UserWithCompanyAsObject.Id doc) primitive.NilObjectID
    then next st else models.UserWithCompanyAsObject.Id doc in
  (inl id,
   mkStore (docs st ++ [models.UserWithCompanyAsObject.setId doc id])
     (N.succ (next st))).

Definition FindOne (filter : mongo.Filter) (st : Store)
  : UserWithCompanyAsObject + error :=
  match find (matches filter) (docs st) with
  | Some doc => inl doc
  | None => inr mongo.ErrNoDocuments
  end.

Definition Find (filter : mongo.Filter) (st : Store)
  : option mongo.Cursor * option error :=
  (Some (mongo.mkCursor (map inl (List.filter (matches filter) (docs st))) None),
   None).

Definition collection : mongo.Collection Store :=
  mongo.mkCollection Store InsertOne FindOne Find.

(** The store of the service over the collection in memory. *)
Definition database : configs.Database Store := configs.NewMongoDB collection.

End memory.

(** * Vocabulary of the claims *)

(** The five required fields of a request, by the name the validator reports
    them under. *)
Definition requiredFields (user : User) : list (string * string) :=
  [("Name", models.User.Name user);
   ("Password", models.User.Password user);
   ("Email", models.User.Email user);
   ("Role", models.User.Role user);
   ("Company", models.User.Company user)].

(** A request is valid when none of its required fields is empty. *)
Definition valid (user : User) : Prop :=
  models.User.Name user <> "" /\ models.User.Password user <> ""
  /\ models.User.Email user <> "" /\ models.User.Role user <> ""
  /\ models.User.Company user <> "".

(** The request a record is built from: the fields as received, the decoded
    company reference, and no identifier yet. *)
Definition recordOf (user : User) (companyId : primitive.ObjectID)
  : UserWithCompanyAsObject :=
  models.UserWithCompanyAsObject.mk primitive.NilObjectID
    (models.User.Name user) (models.User.Password user)
    (models.User.Email user) (models.User.Role user) companyId.

(** The message of the conflict response. *)
Definition alreadyExists (email : string) : string :=
  "User already exists with email: " ++ email.

(** A record whose password field is empty. *)
Definition scrubbed (user : UserWithCompanyAsObject) : Prop :=
  models.UserWithCompanyAsObject.Password user = "".

(** ** Observations on a run *)

(** The calls that went to the company provisioner. *)
Definition provisionerCalls (cs : list Call) : list Call :=
  filter (fun c => match c with CallClientDo _ _ _ => true | _ => false end) cs.

(** The calls that wrote to the store. *)
Definition storeWrites (cs : list Call) : list Call :=
  filter (fun c => match c with CallCreateUser _ => true | _ => false end) cs.

(** The records that the [c.JSON] writes of a run carry as a sequence. *)
Definition usersIn (entry : string * responses.Value)
  : list UserWithCompanyAsObject :=
  match snd entry with
  | responses.VUsers users => users
  | _ => []
  end.

Definition returnedUsers (ws : list Written) : list UserWithCompanyAsObject :=
  flat_map
    (fun wr =>
       match wr with
       | JSON _ obj => flat_map usersIn (responses.Data obj)
       | AbortWithError _ _ => []
       end) ws.

(** The same store, with the error of the email lookup dropped. *)
Definition swallowLookupError {St : Type} (DB : configs.Database St)
  : configs.Database St :=
  configs.mkDatabase St (configs.CreateUser DB) (configs.FindUserByID DB)
    (fun email st =>
       let '((found, _), st') := configs.FindUserByEmail DB email st in
       ((found, None), st'))
    (configs.FindAllUsers DB).

(** ** Scenarios *)

(** A [POST /users] whose body binds to [user]. *)
Definition post (user : User) : gin.Context :=
  gin.mkContext (inl user) (fun _ => "") (fun _ => "").

(** A [GET /users] with the given [email] and [company] query parameters. *)
Definition getUsers (email company : string) : gin.Context :=
  gin.mkContext (inr (ErrorString "EOF")) (fun _ => "")
    (fun key =>
       if String.eqb key "email" then email
       else if String.eqb key "company" then company else "").

(** A [GET /users/:userId]. *)
Definition getUser (userId : string) : gin.Context :=
  gin.mkContext (inr (ErrorString "EOF"))
    (fun key => if String.eqb key "userId" then userId else "") (fun _ => "").

(** The payload of [TestCreateNewUser]; [invited] sets the invitation flag. *)
Definition testUser (invited : bool) : User :=
  models.User.mk "" "Test User" "password" "test@example.com" "admin"
    "649060d540e3b169621e9629" invited.


(** The identifier the mock store of [TestCreateNewUser] assigns. *)
Definition mockUserId : primitive.ObjectID :=
  fst (primitive.ObjectIDFromHex "648a26b07c0d535bb1526e1a").

(** The mock store of [TestCreateNewUser]: no record for any email, and a
    fixed identifier for every record created. *)
Definition mockDB : MockDB.t :=
  MockDB.mk (Some (fun _ => (mockUserId, None))) None
    (Some (fun _ => (None, None))) None.

(** A store that already holds a record for [test@example.com]. *)
Definition storedUser : UserWithCompanyAsObject :=
  models.UserWithCompanyAsObject.mk 1%N "Test User" "password"
    "test@example.com" "admin"
    (fst (primitive.ObjectIDFromHex "649060d540e3b169621e9629")).

Definition janeSmith : UserWithCompanyAsObject :=
  models.UserWithCompanyAsObject.mk 2%N "Jane Smith" "secret"
    "jane.smith@example.com" "user"
    (fst (primitive.ObjectIDFromHex "649060d540e3b169621e9629")).

Definition emptyStore : memory.Store := memory.mkStore [] 1%N.
Definition oneUserStore : memory.Store := memory.mkStore [storedUser] 2%N.
Definition twoUserStore : memory.Store :=
  memory.mkStore [storedUser; janeSmith] 3%N.

(** The mock store of [TestErrorFindUserByEmail], whose email lookup fails. *)
Definition failingLookupDB : MockDB.t :=
  MockDB.mk (Some (fun _ => (mockUserId, None))) None
    (Some (fun _ => (None, Some (ErrorString "mock find user by email error"))))
    None.

(** The error of [TestCreateUserBindJsonError], whose body is [invalid json]. *)
Definition invalidJSON : error :=
  ErrorString "invalid character 'i' looking for beginning of value".

(** * The provisioning revision and further doubles *)

(** ** The revision of the controller that provisions companies *)

(** An earlier revision of package [controllers] resolves the company of a
    registration through the sibling company service: [CreateCompany] posts
    the company name there, and [CreateUser] calls it for a request that is
    not an invitation. Its code can panic, which the handlers above cannot. *)

(** [net/http], as far as [CreateCompany] uses it. *)
Module nethttp.

Record Request : Type := mkRequest {
  Method : string;
  URL : string;
  Header : list (string * string);
  Body : string
}.

(** A response: its status code and its [Body], which is nil ([None]) or a
    reader, given by what [ioutil.ReadAll] yields on it. The field cannot be
    called [Body] beside that of [Request]. *)
Record Response : Type := mkResponse {
  StatusCode : Z;
  ResponseBody : option (string + error)
}.

(** The [HTTPClient] interface: [Do] yields a response pointer and an
    error. *)
Record HTTPClient (St : Type) : Type := mkHTTPClient {
  Do : Request -> St -> (option Response * option error) * St
}.

Arguments Do {St}.

End nethttp.

(** [encoding/json], as far as [CreateCompany] uses it: the values that
    [json.Unmarshal] stores in a [map[string]interface{}], the map being the
    list of its entries (keys distinct; [nil] is the empty list). *)
Module json.

Local Unset Elimination Schemes.

Inductive Value : Type :=
| JNull                                   (* nil *)
| JBool (b : bool)
| JNumber (literal : string)              (* float64 *)
| JString (s : string)
| JArray (items : list Value)
| JObject (fields : list (string * Value)).

Local Set Elimination Schemes.

Definition Map : Type := list (string * Value).

(** [m[key]]: the value under [key], [nil] when there is none. *)
Fixpoint index (m : Map) (key : string) : Value :=
  match m with
  | [] => JNull
  | (k, v) :: rest => if String.eqb k key then v else index rest key
  end.

(** [v != nil]. *)
Definition notNil (v : Value) : bool :=
  match v with
  | JNull => false
  | _ => true
  end.

End json.

(** A computation that may panic: [None] is the panic, with the world as it
    was when it happened. *)
Definition Panicking (St A : Type) : Type := World St -> option A * World St.

Definition bindP {St A B : Type} (m : Panicking St A)
    (k : A -> Panicking St B) : Panicking St B :=
  fun w =>
    match m w with
    | (Some a, w') => k a w'
    | (None, w') => (None, w')
    end.

(** A handler step, which does not panic. *)
Definition lift {St A : Type} (h : Handler St A) : Panicking St A :=
  fun w => let (a, w') := h w in (Some a, w').

Definition panic {St A : Type} : Panicking St A := fun w => (None, w).

Declare Scope panicking_scope.
Delimit Scope panicking_scope with panicking.
Notation "x <-- m ;; k" := (bindP m (fun x => k))
  (at level 100, m at next level, right associativity) : panicking_scope.

(** The double quote character. *)
Definition quote : string := String "034"%char EmptyString.

Module provisioning.

Import responses.
Local Open Scope panicking_scope.

Section Handlers.

Context {St : Type}.

(** [os.Getenv]. *)
Variable Getenv : string -> string.

(** Whether [http.NewRequest] accepts the URL; on one it cannot parse it
    returns a [nil] request. *)
Variable urlParses : string -> bool.

(** [json.Unmarshal(bodyBytes, &responseMap)]. *)
Variable Unmarshal : string -> json.Map + error.

(** The package variables [Client] and [DB]. *)
Variable Client : nethttp.HTTPClient St.
Variable DB : configs.Database St.

(** [CreateCompany]. *)
Definition CreateCompany (company : string)
  : Panicking St (string * option error) :=
  fun w =>
  let url := Getenv "COMPANY_SERVICE_URL" in
  let jsonStr := "{" ++ quote ++ "name" ++ quote ++ ":" ++ quote
                   ++ company ++ quote ++ "}" in
  if negb (urlParses url) then
    (* [req] is nil and [req.Header.Set] dereferences it *)
    (None, w)
  else
  let req :=
    nethttp.mkRequest "POST" url [("Content-Type", "application/json")]
      jsonStr in
  let '((resp, err), st') := nethttp.Do Client req (store w) in
  let w' :=
    mkWorld st' (calls w ++ [CallClientDo "POST" url jsonStr]) (written w) in
  match err with
  | Some _ =>
      (Some ("", Some (ErrorString
                         "failed creating a new company on separate service")),
       w')
  | None =>
  match resp with
  | None =>
      (* [defer resp.Body.Close()] reads [resp.Body] of a nil response *)
      (None, w')
  | Some resp =>
  match nethttp.ResponseBody resp with
  | None =>
      (* [defer resp.Body.Close()] takes a method of the nil [Body] *)
      (None, w')
  | Some (inr err) => (Some ("", Some err), w')
  | Some (inl bodyBytes) =>
  match Unmarshal bodyBytes with
  | inr err => (Some ("", Some err), w')
  | inl responseMap =>
  if json.notNil (json.index responseMap "error") then
    match json.index responseMap "message" with
    | json.JString message => (Some ("", Some (ErrorString message)), w')
    | _ =>
        (* the type assertion [.(string)] fails *)
        (None, w')
    end
  else
    match json.index responseMap "id" with
    | json.JString companyIdStr => (Some (companyIdStr, None), w')
    | _ => (Some ("", Some (ErrorString "failed to extract company ID")), w')
    end
  end end end end.

(** The handler [CreateUser] returns, in this revision. *)
Definition CreateUser (c : gin.Context) : Panicking St unit :=
  bound <-- lift (gin.BindJSON c) ;;
  match bound with
  | inr _ => lift (ret tt)
  | inl user =>
  match controllers.ValidateRequest user c with
  | Some err =>
      lift (gin.JSON http.StatusBadRequest
              (mkUserResponse http.StatusBadRequest "validation error"
                 [("data", VError err)]))
  | None =>
  (* past this point the outer [err] is nil *)
  resolved <--
    (if models.User.Invitation user then
       lift (ret (Some (primitive.ObjectIDFromHex (models.User.Company user))))
     else
       created <-- CreateCompany (models.User.Company user) ;;
       match snd created with
       | Some err =>
           _ <-- lift (gin.JSON http.StatusInternalServerError
                         (mkUserResponse http.StatusInternalServerError
                            "company error" [("data", VError err)])) ;;
           lift (ret None)
       | None =>
           lift (ret (Some (primitive.ObjectIDFromHex (fst created))))
       end) ;;
  match resolved with
  | None => lift (ret tt)
  | Some (companyIdObject, err2) =>
  match err2 with
  | Some _ =>
      (* the response is built from [err.Error()] of the outer, nil [err] *)
      panic
  | None =>
  let userWithCompany :=
    models.UserWithCompanyAsObject.mk primitive.NilObjectID
      (models.User.Name user) (models.User.Password user)
      (models.User.Email user) (models.User.Role user) companyIdObject in
  created <-- lift (call (CallCreateUser userWithCompany)
                      (configs.CreateUser DB userWithCompany)) ;;
  match snd created with
  | Some err =>
      lift (gin.JSON http.StatusInternalServerError
              (mkUserResponse http.StatusInternalServerError
                 "error creating a user" [("data", VError err)]))
  | None =>
      let user := models.User.setId user (primitive.Hex (fst created)) in
      lift (gin.JSON http.StatusCreated
              (mkUserResponse http.StatusCreated "success"
                 [("user", VUser user)]))
  end end end end end.

End Handlers.

End provisioning.

(** The request [CreateCompany] sends for a company name. *)
Definition companyRequest (Getenv : string -> string) (company : string)
  : nethttp.Request :=
  nethttp.mkRequest "POST" (Getenv "COMPANY_SERVICE_URL")
    [("Content-Type", "application/json")]
    ("{" ++ quote ++ "name" ++ quote ++ ":" ++ quote ++ company ++ quote ++ "}").

(** What the provisioning revision of [CreateUser] does once the company of
    a request is resolved to [companyId]: one create on the store, answered
    with the 201 or with the 500 "error creating a user". *)
Definition persisted {St : Type} (DB : configs.Database St) (user : User)
    (companyId : primitive.ObjectID) (w : World St) : World St :=
  let '((id, err), st') :=
    configs.CreateUser DB (recordOf user companyId) (store w) in
  mkWorld st' (calls w ++ [CallCreateUser (recordOf user companyId)])
    (written w
     ++ [match err with
         | Some err =>
             JSON http.StatusInternalServerError
               (responses.mkUserResponse http.StatusInternalServerError
                  "error creating a user" [("data", responses.VError err)])
         | None =>
             JSON http.StatusCreated
               (responses.mkUserResponse http.StatusCreated "success"
                  [("user",
                    responses.VUser
                      (models.User.setId user (primitive.Hex id)))])
         end]).

(** The calls that looked a record up in the store. *)
Definition storeLookups (cs : list Call) : list Call :=
  filter
    (fun c =>
       match c with
       | CallFindUserByID _ | CallFindUserByEmail _ | CallFindAllUsers _ => true
       | _ => false
       end) cs.

(** The mock store of [TestErrorFindUsersDatabase], whose listing fails. *)
Definition failingListingDB : MockDB.t :=
  MockDB.mk None None None
    (Some (fun _ => ([], Some (ErrorString "mock find all users error")))).

(** Doubles for the company service: the URL it is configured under, the body
    it answers with for a created company, the map that body unmarshals to,
    and a client that answers every POST to that URL with it. *)
Definition companyServiceURL : string := "http://localhost:3000/companies".

Definition testGetenv (key : string) : string :=
  if String.eqb key "COMPANY_SERVICE_URL" then companyServiceURL else "".

Definition companyBody (id : string) : string :=
  "{" ++ quote ++ "id" ++ quote ++ ":" ++ quote ++ id ++ quote ++ ","
    ++ quote ++ "name" ++ quote ++ ":" ++ quote ++ "Test Company" ++ quote
    ++ "}".

Definition testUnmarshal (id : string) (bodyBytes : string)
  : json.Map + error :=
  if String.eqb bodyBytes (companyBody id) then
    inl [("id", json.JString id); ("name", json.JString "Test Company")]
  else inr (ErrorString "unexpected end of JSON input").

Definition mockClient (id : string) : nethttp.HTTPClient unit :=
  nethttp.mkHTTPClient unit
    (fun req st =>
       if String.eqb (nethttp.URL req) companyServiceURL then
         ((Some (nethttp.mkResponse http.StatusCreated
                   (Some (inl (companyBody id)))),
           None), st)
       else ((None, Some (ErrorString "unexpected request path")), st)).

(** The payload of the older [TestCreateNewUser]: a company name. *)
Definition founder : User :=
  models.User.mk "" "Test User" "password" "test@example.com" "admin"
    "Test Company" false.

(** * Properties *)

(** ** The identifier codec *)

Lemma append_length (s1 s2 : string) :
  String.length (s1 ++ s2) = String.length s1 + String.length s2.
Proof.
  induction s1 as [|c s1 IH]; simpl; [reflexivity | now rewrite IH].
Qed.

Lemma Encode_length (k : nat) : forall n, String.length (hex.Encode k n) = k.
Proof.
  induction k as [|k IH]; intro n; simpl; [reflexivity|].
  rewrite append_length, IH. simpl. lia.
Qed.

(** An identifier always prints as 24 characters, so never as the empty
    string. *)
Lemma Hex_length (id : primitive.ObjectID) :
  String.length (primitive.Hex id) = 24.
Proof. apply Encode_length. Qed.

Lemma Hex_nonempty (id : primitive.ObjectID) : primitive.Hex id <> "".
Proof.
  intro H. pose proof (Hex_length id) as L. rewrite H in L. discriminate L.
Qed.

(** A failed decoding yields the zero identifier. *)
Lemma ObjectIDFromHex_error (s : string) (id : primitive.ObjectID) (err : error) :
  primitive.ObjectIDFromHex s = (id, Some err) -> id = primitive.NilObjectID.
Proof.
  unfold primitive.ObjectIDFromHex.
  destruct (Nat.eqb (String.length s) 24); [destruct (hex.Decode s 0)|];
    intro H; inversion H; reflexivity.
Qed.

(** Only tokens of 24 bytes decode. *)
Lemma ObjectIDFromHex_ok_length (s : string) (id : primitive.ObjectID) :
  primitive.ObjectIDFromHex s = (id, None) -> String.length s = 24.
Proof.
  unfold primitive.ObjectIDFromHex.
  destruct (Nat.eqb (String.length s) 24) eqn:E.
  - intros _. now apply Nat.eqb_eq.
  - discriminate.
Qed.

(** ** The validator *)

Lemma In_required (fe : FieldError) (field value : string) :
  In fe (validator.required field value)
  <-> fe = mkFieldError field "required" /\ value = "".
Proof.
  unfold validator.required. destruct (String.eqb_spec value "") as [E|E]; simpl.
  - split.
    + intros [H|[]]. now split.
    + intros [H _]. now left.
  - split; [contradiction | intros [_ H]; contradiction].
Qed.

Lemma Struct_None (user : User) : validator.Struct user = None <-> valid user.
Proof.
  unfold validator.Struct, valid, validator.required.
  destruct (String.eqb_spec (models.User.Name user) ""),
    (String.eqb_spec (models.User.Password user) ""),
    (String.eqb_spec (models.User.Email user) ""),
    (String.eqb_spec (models.User.Role user) ""),
    (String.eqb_spec (models.User.Company user) "");
    simpl; split; intro H; try discriminate H; try tauto.
Qed.

(** What the validator returns is the list of the failures of all five
    fields: a field is listed exactly when it is empty. *)
Lemma Struct_Some (user : User) (err : error) :
  validator.Struct user = Some err ->
  exists errs,
    err = ValidationErrors errs /\ errs <> []
    /\ forall field value,
         In (field, value) (requiredFields user) ->
         (In (mkFieldError field "required") errs <-> value = "").
Proof.
  unfold validator.Struct.
  set (errs := (validator.required "Name" _ ++ _)%list).
  assert (Hin : forall field value,
             In (field, value) (requiredFields user) ->
             (In (mkFieldError field "required") errs <-> value = "")).
  { intros field value Hf. unfold errs. rewrite !in_app_iff, !In_required.
    simpl in Hf.
    repeat (destruct Hf as [Hf|Hf]; [inversion Hf; subst; clear Hf|]);
      try contradiction;
      (split; [intuition congruence|]); intro E; rewrite E; tauto. }
  destruct errs as [|fe errs'] eqn:E; [discriminate|].
  intro H. inversion H; subst. exists (fe :: errs').
  repeat split; try discriminate; apply Hin; assumption.
Qed.

(** ** The paths through [CreateUser] *)

Ltac step_handler :=
  unfold run, controllers.CreateUser, controllers.FindById,
    controllers.GetUsers, controllers.FindByEmail, bind, ret, gin.BindJSON,
    call, gin.JSON.

Section CreateUserPaths.

Context {St : Type}.
Variable DB : configs.Database St.
Variable c : gin.Context.
Variable w : World St.

Lemma CreateUser_bind_error (err : error) :
  gin.body c = inr err ->
  run (controllers.CreateUser DB c) w
  = mkWorld (store w) (calls w)
      (written w ++ [AbortWithError http.StatusBadRequest err]).
Proof. intro Hb. step_handler. rewrite Hb. reflexivity. Qed.

Variable user : User.
Hypothesis bound : gin.body c = inl user.

Lemma CreateUser_invalid (err : error) :
  controllers.ValidateRequest user c = Some err ->
  run (controllers.CreateUser DB c) w
  = mkWorld (store w) (calls w)
      (written w
       ++ [JSON http.StatusBadRequest
             (responses.mkUserResponse http.StatusBadRequest "validation error"
                [("data", responses.VError err)])]).
Proof. intro Hv. step_handler. rewrite bound, Hv. reflexivity. Qed.

Hypothesis validated : controllers.ValidateRequest user c = None.

Lemma CreateUser_exists (existing : UserWithCompanyAsObject)
    (lookupErr : option error) (st1 : St) :
  configs.FindUserByEmail DB (models.User.Email user) (store w)
  = ((Some existing, lookupErr), st1) ->
  run (controllers.CreateUser DB c) w
  = mkWorld st1 (calls w ++ [CallFindUserByEmail (models.User.Email user)])
      (written w
       ++ [JSON http.StatusBadRequest
             (responses.mkUserResponse http.StatusBadRequest
                (alreadyExists (models.UserWithCompanyAsObject.Email existing))
                [("data",
                  responses.VString
                    (alreadyExists
                       (models.UserWithCompanyAsObject.Email existing)))])]).
Proof. intro Hf. step_handler. rewrite bound, validated, Hf. reflexivity. Qed.

Variable lookupErr : option error.
Variable st1 : St.
Hypothesis available :
  configs.FindUserByEmail DB (models.User.Email user) (store w)
  = ((None, lookupErr), st1).

Lemma CreateUser_bad_company (id : primitive.ObjectID) (err2 : error) :
  primitive.ObjectIDFromHex (models.User.Company user) = (id, Some err2) ->
  run (controllers.CreateUser DB c) w
  = mkWorld st1 (calls w ++ [CallFindUserByEmail (models.User.Email user)])
      (written w
       ++ [JSON http.StatusInternalServerError
             (responses.mkUserResponse http.StatusInternalServerError
                "error on companyId as an object"
                [("data", responses.VError err2)])]).
Proof.
  intro Hc. step_handler. rewrite bound, validated, available. simpl.
  rewrite Hc. reflexivity.
Qed.

Variable companyId : primitive.ObjectID.
Hypothesis decoded :
  primitive.ObjectIDFromHex (models.User.Company user) = (companyId, None).

Lemma CreateUser_store_error (id : primitive.ObjectID) (err : error) (st2 : St) :
  configs.CreateUser DB (recordOf user companyId) st1 = ((id, Some err), st2) ->
  run (controllers.CreateUser DB c) w
  = mkWorld st2
      (calls w ++ [CallFindUserByEmail (models.User.Email user);
                   CallCreateUser (recordOf user companyId)])
      (written w
       ++ [JSON http.StatusInternalServerError
             (responses.mkUserResponse http.StatusInternalServerError
                "error storing user on database"
                [("data", responses.VError err)])]).
Proof.
  intro Hs. step_handler. rewrite bound, validated, available. simpl.
  rewrite decoded. fold (recordOf user companyId). simpl. rewrite Hs. simpl.
  rewrite <- app_assoc. reflexivity.
Qed.

Lemma CreateUser_created (id : primitive.ObjectID) (st2 : St) :
  configs.CreateUser DB (recordOf user companyId) st1 = ((id, None), st2) ->
  run (controllers.CreateUser DB c) w
  = mkWorld st2
      (calls w ++ [CallFindUserByEmail (models.User.Email user);
                   CallCreateUser (recordOf user companyId)])
      (written w
       ++ [JSON http.StatusCreated
             (responses.mkUserResponse http.StatusCreated "success"
                [("user",
                  responses.VUser
                    (models.User.setId user (primitive.Hex id)))])]).
Proof.
  intro Hs. step_handler. rewrite bound, validated, available. simpl.
  rewrite decoded. fold (recordOf user companyId). simpl. rewrite Hs. simpl.
  rewrite <- app_assoc. reflexivity.
Qed.

(** Once the company reference has decoded, the store is asked to create the
    record, whatever it then answers. *)
Lemma CreateUser_decoded_calls :
  calls (run (controllers.CreateUser DB c) w)
  = (calls w ++ [CallFindUserByEmail (models.User.Email user);
                 CallCreateUser (recordOf user companyId)])%list.
Proof.
  destruct (configs.CreateUser DB (recordOf user companyId) st1)
    as [[id [err|]] st2] eqn:Hs.
  - rewrite (CreateUser_store_error _ _ _ Hs). reflexivity.
  - rewrite (CreateUser_created _ _ Hs). reflexivity.
Qed.

End CreateUserPaths.

(** ** The store *)

Section Store.

Context {St : Type}.
Variable userCollection : mongo.Collection St.

Lemma decodeUsers_scrubbed (documents : list (UserWithCompanyAsObject + error)) :
  forall users result,
    Forall scrubbed users ->
    configs.decodeUsers documents users = inl result ->
    Forall scrubbed result.
Proof.
  induction documents as [|[user|err] rest IH]; simpl; intros users result Hu H.
  - inversion H; subst. exact Hu.
  - apply (IH (users ++ [models.UserWithCompanyAsObject.setPassword user ""])%list);
      [|exact H].
    apply Forall_app. split; [exact Hu|]. now repeat constructor.
  - discriminate H.
Qed.

Lemma FindAllUsers_scrubbed (companyId : primitive.ObjectID) (st : St) :
  Forall scrubbed
    (fst (fst (configs.MongoDB_FindAllUsers userCollection companyId st))).
Proof.
  unfold configs.MongoDB_FindAllUsers.
  destruct (mongo.Find userCollection _ st) as [[cursor|] [err|]]; simpl;
    try constructor.
  destruct (configs.decodeUsers _ _) as [users|err] eqn:Hd; simpl;
    [|constructor].
  destruct (mongo.Err cursor); simpl; [constructor|].
  apply (decodeUsers_scrubbed (mongo.documents cursor) [] users);
    [constructor | exact Hd].
Qed.

(** The single-record lookups hand back the decoded document as it is. *)
Lemma FindUserByID_found (id : primitive.ObjectID) (st : St)
    (user : UserWithCompanyAsObject) :
  mongo.FindOne userCollection (mongo.FilterId id) st = inl user ->
  configs.FindUserByID (configs.NewMongoDB userCollection) id st
  = ((Some user, None), st).
Proof.
  intro H. simpl. unfold configs.MongoDB_FindUserByID. now rewrite H.
Qed.

Lemma FindUserByEmail_found (email : string) (st : St)
    (user : UserWithCompanyAsObject) :
  mongo.FindOne userCollection (mongo.FilterEmail email) st = inl user ->
  configs.FindUserByEmail (configs.NewMongoDB userCollection) email st
  = ((Some user, None), st).
Proof.
  intro H. simpl. unfold configs.MongoDB_FindUserByEmail. now rewrite H.
Qed.

Lemma FindUserByEmail_missing (email : string) (st : St) (err : error) :
  mongo.FindOne userCollection (mongo.FilterEmail email) st = inr err ->
  configs.FindUserByEmail (configs.NewMongoDB userCollection) email st
  = ((None, Some err), st).
Proof.
  intro H. simpl. unfold configs.MongoDB_FindUserByEmail. now rewrite H.
Qed.

End Store.

(** * The claims *)

(** ** C2: a duplicate email *)

Lemma valid_ValidateRequest (user : User) (c : gin.Context) :
  valid user -> controllers.ValidateRequest user c = None.
Proof.
  intro Hv. unfold controllers.ValidateRequest.
  now rewrite (proj2 (Struct_None user) Hv).
Qed.

Lemma valid_testUser (invited : bool) : valid (testUser invited).
Proof. unfold valid, testUser; simpl. repeat split; discriminate. Qed.

(** C2, as stated, fails on a request that is not valid: with the name left
    empty, a request for the stored email [test@example.com] is answered with
    the validation error, and the store is not even consulted. *)
Lemma C2_counterexample :
  let user :=
    models.User.mk "" "" "password" "test@example.com" "admin"
      "649060d540e3b169621e9629" true in
  configs.FindUserByEmail memory.database (models.User.Email user) oneUserStore
  = ((Some storedUser, None), oneUserStore)
  /\ models.UserWithCompanyAsObject.Email storedUser = models.User.Email user
  /\ run (controllers.CreateUser memory.database (post user))
       (start oneUserStore)
     = mkWorld oneUserStore []
         [JSON 400
            (responses.mkUserResponse 400 "validation error"
               [("data",
                 responses.VError
                   (ValidationErrors [mkFieldError "Name" "required"]))])].
Proof.
  intro user. split; [reflexivity | split; [reflexivity|]].
  apply (CreateUser_invalid memory.database (post user) (start oneUserStore)
           user eq_refl).
  reflexivity.
Qed.

(** C2, amended: for every valid request whose email already has a stored
    record (the lookup by that email returns a record with that email),
    registration fails with 400 and the message "User already exists with
    email: <email>"; the lookup is the only call made: the company field is not
    decoded into a store write, nothing goes to the provisioner and nothing is
    written to the store. *)
Theorem C2_duplicate_email_rejected
    {St : Type} (DB : configs.Database St) (c : gin.Context) (w : World St)
    (user : User) (existing : UserWithCompanyAsObject)
    (lookupErr : option error) (st1 : St) :
  gin.body c = inl user ->
  valid user ->
  configs.FindUserByEmail DB (models.User.Email user) (store w)
  = ((Some existing, lookupErr), st1) ->
  models.UserWithCompanyAsObject.Email existing = models.User.Email user ->
  let w' := run (controllers.CreateUser DB c) w in
  w' = mkWorld st1 (calls w ++ [CallFindUserByEmail (models.User.Email user)])
         (written w
          ++ [JSON 400
                (responses.mkUserResponse 400
                   ("User already exists with email: " ++ models.User.Email user)
                   [("data",
                     responses.VString
                       ("User already exists with email: "
                          ++ models.User.Email user))])])
  /\ provisionerCalls (calls w') = provisionerCalls (calls w)
  /\ storeWrites (calls w') = storeWrites (calls w).
Proof.
  intros Hb Hv Hf He w'.
  assert (Hw : w' = mkWorld st1
                 (calls w ++ [CallFindUserByEmail (models.User.Email user)])
                 (written w
                  ++ [JSON 400
                        (responses.mkUserResponse 400
                           (alreadyExists (models.User.Email user))
                           [("data",
                             responses.VString
                               (alreadyExists (models.User.Email user)))])])).
  { pose proof (CreateUser_exists DB c w user Hb
                  (valid_ValidateRequest user c Hv) existing lookupErr st1 Hf)
      as H.
    rewrite He in H. exact H. }
  split; [exact Hw|].
  rewrite Hw. unfold provisionerCalls, storeWrites. simpl.
  rewrite !filter_app. simpl. now rewrite !app_nil_r.
Qed.

(** The amended C2 on the scenario of the specification: the request of
    [TestCreateNewUser] repeated against a store that holds a record for
    [test@example.com]. The store is left as it was. *)
Lemma C2_duplicate_email_rejected_witness :
  run (controllers.CreateUser memory.database (post (testUser true)))
    (start oneUserStore)
  = mkWorld oneUserStore [CallFindUserByEmail "test@example.com"]
      [JSON 400
         (responses.mkUserResponse 400
            "User already exists with email: test@example.com"
            [("data",
              responses.VString
                "User already exists with email: test@example.com")])].
Proof.
  exact (proj1
           (C2_duplicate_email_rejected memory.database (post (testUser true))
              (start oneUserStore) (testUser true) storedUser None oneUserStore
              eq_refl (valid_testUser true) eq_refl eq_refl)).
Defined.

(** ** C3: missing fields *)

(** C3: a request with any of name, password, email, role or company empty is
    answered with the 400 "validation error" before any call to the store or
    the provisioner, and the error carried is one [ValidationErrors] value that
    lists every empty field, not only the first. *)
Theorem C3_missing_fields_rejected
    {St : Type} (DB : configs.Database St) (c : gin.Context) (w : World St)
    (user : User) :
  gin.body c = inl user ->
  models.User.Name user = "" \/ models.User.Password user = ""
  \/ models.User.Email user = "" \/ models.User.Role user = ""
  \/ models.User.Company user = "" ->
  exists errs,
    run (controllers.CreateUser DB c) w
    = mkWorld (store w) (calls w)
        (written w
         ++ [JSON 400
               (responses.mkUserResponse 400 "validation error"
                  [("data", responses.VError (ValidationErrors errs))])])
    /\ (In (mkFieldError "Name" "required") errs
        <-> models.User.Name user = "")
    /\ (In (mkFieldError "Password" "required") errs
        <-> models.User.Password user = "")
    /\ (In (mkFieldError "Email" "required") errs
        <-> models.User.Email user = "")
    /\ (In (mkFieldError "Role" "required") errs
        <-> models.User.Role user = "")
    /\ (In (mkFieldError "Company" "required") errs
        <-> models.User.Company user = "").
Proof.
  intros Hb Hmissing.
  destruct (validator.Struct user) as [err|] eqn:Hs.
  - destruct (Struct_Some user err Hs) as (errs & -> & _ & Hin).
    exists errs. split.
    + apply (CreateUser_invalid DB c w user Hb).
      unfold controllers.ValidateRequest. now rewrite Hs.
    + repeat split; apply Hin; simpl; tauto.
  - apply Struct_None in Hs. unfold valid in Hs. tauto.
Qed.

(** C3 on a request with both the name and the role missing: both are
    listed, and the mock store of the tests is never called. *)
Lemma C3_missing_fields_rejected_witness :
  let user :=
    models.User.mk "" "" "password" "john.doe@example.com" "" "Company XYZ"
      false in
  exists errs,
    run (controllers.CreateUser (MockDB.database mockDB) (post user)) (start tt)
    = mkWorld tt []
        [JSON 400
           (responses.mkUserResponse 400 "validation error"
              [("data", responses.VError (ValidationErrors errs))])]
    /\ In (mkFieldError "Name" "required") errs
    /\ In (mkFieldError "Role" "required") errs.
Proof.
  intro user.
  destruct (C3_missing_fields_rejected (MockDB.database mockDB) (post user)
              (start tt) user eq_refl (or_introl eq_refl))
    as (errs & Hrun & Hname & _ & _ & Hrole & _).
  exists errs. split; [exact Hrun|].
  split; [apply Hname | apply Hrole]; reflexivity.
Defined.

(** ** C4: passwords on the company listing *)

Lemma returnedUsers_app (ws1 ws2 : list Written) :
  returnedUsers (ws1 ++ ws2) = (returnedUsers ws1 ++ returnedUsers ws2)%list.
Proof. apply flat_map_app. Qed.

(** What [GetUsers] writes as a sequence of records is what [FindAllUsers]
    of the store returned. *)
Lemma GetUsers_returnedUsers
    {St : Type} (DB : configs.Database St) (c : gin.Context) (w : World St) :
  let companyId := fst (primitive.ObjectIDFromHex (gin.Query c "company")) in
  returnedUsers (written (run (controllers.GetUsers DB c) w))
  = (returnedUsers (written w))%list
  \/ returnedUsers (written (run (controllers.GetUsers DB c) w))
     = (returnedUsers (written w)
        ++ fst (fst (configs.FindAllUsers DB companyId (store w))))%list.
Proof.
  intro companyId. step_handler.
  destruct (negb (gin.Query c "email" =? "")).
  - left.
    destruct (configs.FindUserByEmail DB (gin.Query c "email") (store w))
      as [[found [err|]] st']; simpl; rewrite returnedUsers_app; simpl;
      apply app_nil_r.
  - destruct ((gin.Query c "company" =? "")
              || (gin.Query c "company" =? "undefined")); simpl.
    + left. rewrite returnedUsers_app. simpl. apply app_nil_r.
    + fold companyId.
      destruct (configs.FindAllUsers DB companyId (store w))
        as [[users [err|]] st']; simpl; rewrite returnedUsers_app; simpl.
      * left. apply app_nil_r.
      * right. now rewrite !app_nil_r.
Qed.

(** C4: whatever the collection holds and whichever company is asked for,
    every record that [FindAllUsers] of the store returns has an empty
    password, and so has every record that the listing handler writes out over
    that store. *)
Theorem C4_company_listing_passwords_cleared
    {St : Type} (userCollection : mongo.Collection St)
    (companyId : primitive.ObjectID) (st : St) (c : gin.Context) :
  Forall scrubbed
    (fst (fst (configs.FindAllUsers (configs.NewMongoDB userCollection)
                 companyId st)))
  /\ Forall scrubbed
       (returnedUsers
          (written
             (run (controllers.GetUsers (configs.NewMongoDB userCollection) c)
                (start st)))).
Proof.
  split.
  - apply FindAllUsers_scrubbed.
  - destruct (GetUsers_returnedUsers (configs.NewMongoDB userCollection) c
                (start st)) as [H|H]; rewrite H; simpl.
    + constructor.
    + apply FindAllUsers_scrubbed.
Qed.

(** The listing over a collection of two records of one company: both come
    back, in order, with the password field cleared. *)
Example GetUsers_two_users :
  returnedUsers
    (written
       (run (controllers.GetUsers memory.database
               (getUsers "" "649060d540e3b169621e9629"))
          (start twoUserStore)))
  = [models.UserWithCompanyAsObject.setPassword storedUser "";
     models.UserWithCompanyAsObject.setPassword janeSmith ""].
Proof. vm_compute. reflexivity. Qed.

(** ** C5: the company token *)

(** C5, as stated, fails on a request whose email is taken: the request of
    [TestErrorWrongObjectId], sent as an invitation against a store that holds
    a record for its email, is answered with the 400 of the duplicate email;
    its malformed company token is never decoded. *)
Lemma C5_counterexample :
  let user :=
    models.User.mk "" "Test User" "password" "test@example.com" "admin"
      "606d97b4c1bea43ce49be6dc_!WorngId" true in
  snd (primitive.ObjectIDFromHex (models.User.Company user))
  = Some ErrInvalidHex
  /\ run (controllers.CreateUser memory.database (post user))
       (start oneUserStore)
     = mkWorld oneUserStore [CallFindUserByEmail "test@example.com"]
         [JSON 400
            (responses.mkUserResponse 400
               "User already exists with email: test@example.com"
               [("data",
                 responses.VString
                   "User already exists with email: test@example.com")])].
Proof.
  intro user. split; [reflexivity|].
  apply (CreateUser_exists memory.database (post user) (start oneUserStore)
           user eq_refl eq_refl storedUser None oneUserStore).
  reflexivity.
Qed.

(** C5, amended: for every valid request with [invitation=true] for whose
    email the lookup finds no record: if the company token does not decode,
    registration fails with the 500 "error on companyId as an object" that
    carries the decoding error, and the lookup is the only call made (no store
    write); if it decodes, the decoded reference is the company of the record
    handed to the store's create, and no call goes to the provisioner. *)
Theorem C5_invitation_company_token
    {St : Type} (DB : configs.Database St) (c : gin.Context) (w : World St)
    (user : User) (lookupErr : option error) (st1 : St) :
  gin.body c = inl user ->
  models.User.Invitation user = true ->
  valid user ->
  configs.FindUserByEmail DB (models.User.Email user) (store w)
  = ((None, lookupErr), st1) ->
  let w' := run (controllers.CreateUser DB c) w in
  match primitive.ObjectIDFromHex (models.User.Company user) with
  | (_, Some err2) =>
      w' = mkWorld st1
             (calls w ++ [CallFindUserByEmail (models.User.Email user)])
             (written w
              ++ [JSON 500
                    (responses.mkUserResponse 500
                       "error on companyId as an object"
                       [("data", responses.VError err2)])])
      /\ storeWrites (calls w') = storeWrites (calls w)
  | (companyId, None) =>
      calls w'
      = (calls w ++ [CallFindUserByEmail (models.User.Email user);
                     CallCreateUser (recordOf user companyId)])%list
      /\ models.UserWithCompanyAsObject.Company (recordOf user companyId)
         = companyId
  end
  /\ provisionerCalls (calls w') = provisionerCalls (calls w).
Proof.
  intros Hb _ Hv Hf w'.
  pose proof (valid_ValidateRequest user c Hv) as Hv'.
  destruct (primitive.ObjectIDFromHex (models.User.Company user))
    as [companyId [err2|]] eqn:Hc.
  - assert (Hw : w' = mkWorld st1
                   (calls w ++ [CallFindUserByEmail (models.User.Email user)])
                   (written w
                    ++ [JSON 500
                          (responses.mkUserResponse 500
                             "error on companyId as an object"
                             [("data", responses.VError err2)])])).
    { exact (CreateUser_bad_company DB c w user Hb Hv' lookupErr st1 Hf
               companyId err2 Hc). }
    rewrite Hw. unfold storeWrites, provisionerCalls. simpl.
    rewrite !filter_app. simpl. rewrite !app_nil_r. auto.
  - pose proof (CreateUser_decoded_calls DB c w user Hb Hv' lookupErr st1 Hf
                  companyId Hc) as Hcalls.
    fold w' in Hcalls.
    rewrite Hcalls. unfold provisionerCalls. rewrite filter_app. simpl.
    rewrite app_nil_r. auto.
Qed.

(** The amended C5 on the malformed token of [TestErrorWrongObjectId] and on
    the well-formed one of [TestCreateNewUser], both sent as invitations to an
    empty store. *)
Lemma C5_invitation_company_token_witness :
  let bad :=
    models.User.mk "" "Test User" "password" "test@example.com" "admin"
      "606d97b4c1bea43ce49be6dc_!WorngId" true in
  run (controllers.CreateUser memory.database (post bad)) (start emptyStore)
  = mkWorld emptyStore [CallFindUserByEmail "test@example.com"]
      [JSON 500
         (responses.mkUserResponse 500 "error on companyId as an object"
            [("data", responses.VError ErrInvalidHex)])]
  /\ calls (run (controllers.CreateUser memory.database (post (testUser true)))
              (start emptyStore))
     = [CallFindUserByEmail "test@example.com";
        CallCreateUser
          (recordOf (testUser true)
             (fst (primitive.ObjectIDFromHex "649060d540e3b169621e9629")))].
Proof.
  intro bad. split.
  - assert (Hv : valid bad).
    { unfold valid, bad; simpl. repeat split; discriminate. }
    exact (proj1 (proj1
             (C5_invitation_company_token memory.database (post bad)
                (start emptyStore) bad (Some mongo.ErrNoDocuments) emptyStore
                eq_refl eq_refl Hv eq_refl))).
  - exact (proj1 (proj1
             (C5_invitation_company_token memory.database
                (post (testUser true)) (start emptyStore) (testUser true)
                (Some mongo.ErrNoDocuments) emptyStore eq_refl eq_refl
                (valid_testUser true) eq_refl))).
Defined.

(** ** C6: a failing email lookup *)

(** [CreateUser] never looks at the error of the email lookup. *)
Lemma CreateUser_swallows
    {St : Type} (DB : configs.Database St) (c : gin.Context) (w : World St) :
  run (controllers.CreateUser DB c) w
  = run (controllers.CreateUser (swallowLookupError DB) c) w.
Proof.
  step_handler. destruct (gin.body c) as [user|err]; [|reflexivity].
  destruct (controllers.ValidateRequest user c); [reflexivity|].
  simpl.
  destruct (configs.FindUserByEmail DB (models.User.Email user) (store w))
    as [[[existing|] lookupErr] st1]; reflexivity.
Qed.

(** C6: when the email lookup of a registration returns an error and no
    record, the registration runs exactly as it does against the same store
    answering that lookup with no record and no error: same calls, same
    response, same store. For a valid request it proceeds as if the email were
    free: the company token is decoded next, an undecodable one is answered
    with the 500 "error on companyId as an object", and a decodable one sends
    the record to the store's create, whose answer decides between the 201 and
    the 500 "error storing user on database". The lookup error appears in
    none of these responses. *)
Theorem C6_lookup_error_swallowed
    {St : Type} (DB : configs.Database St) (c : gin.Context) (w : World St)
    (user : User) (err : error) (st1 : St) :
  gin.body c = inl user ->
  configs.FindUserByEmail DB (models.User.Email user) (store w)
  = ((None, Some err), st1) ->
  configs.FindUserByEmail (swallowLookupError DB) (models.User.Email user)
    (store w)
  = ((None, None), st1)
  /\ run (controllers.CreateUser DB c) w
     = run (controllers.CreateUser (swallowLookupError DB) c) w
  /\ (valid user ->
      run (controllers.CreateUser DB c) w
      = match primitive.ObjectIDFromHex (models.User.Company user) with
        | (_, Some err2) =>
            mkWorld st1
              (calls w ++ [CallFindUserByEmail (models.User.Email user)])
              (written w
               ++ [JSON 500
                     (responses.mkUserResponse 500
                        "error on companyId as an object"
                        [("data", responses.VError err2)])])
        | (companyId, None) =>
            let '((id, storeErr), st2) :=
              configs.CreateUser DB (recordOf user companyId) st1 in
            mkWorld st2
              (calls w ++ [CallFindUserByEmail (models.User.Email user);
                           CallCreateUser (recordOf user companyId)])
              (written w
               ++ [match storeErr with
                   | Some storeErr =>
                       JSON 500
                         (responses.mkUserResponse 500
                            "error storing user on database"
                            [("data", responses.VError storeErr)])
                   | None =>
                       JSON 201
                         (responses.mkUserResponse 201 "success"
                            [("user",
                              responses.VUser
                                (models.User.setId user (primitive.Hex id)))])
                   end])
        end).
Proof.
  intros Hb Hf. split; [|split].
  - simpl. now rewrite Hf.
  - apply CreateUser_swallows.
  - intro Hv. pose proof (valid_ValidateRequest user c Hv) as Hv'.
    destruct (primitive.ObjectIDFromHex (models.User.Company user))
      as [companyId [err2|]] eqn:Hc.
    + exact (CreateUser_bad_company DB c w user Hb Hv' (Some err) st1 Hf
               companyId err2 Hc).
    + destruct (configs.CreateUser DB (recordOf user companyId) st1)
        as [[id [storeErr|]] st2] eqn:Hs.
      * exact (CreateUser_store_error DB c w user Hb Hv' (Some err) st1 Hf
                 companyId Hc id storeErr st2 Hs).
      * exact (CreateUser_created DB c w user Hb Hv' (Some err) st1 Hf
                 companyId Hc id st2 Hs).
Qed.

(** C6 on the request of [TestCreateNewUser] against the mock store of
    [TestErrorFindUserByEmail], whose lookup fails: the record is sent to the
    store and the user is created, exactly as against [mockDB]. *)
Lemma C6_lookup_error_swallowed_witness :
  run (controllers.CreateUser (MockDB.database failingLookupDB)
         (post (testUser false))) (start tt)
  = mkWorld tt
      [CallFindUserByEmail "test@example.com";
       CallCreateUser
         (recordOf (testUser false)
            (fst (primitive.ObjectIDFromHex "649060d540e3b169621e9629")))]
      [JSON 201
         (responses.mkUserResponse 201 "success"
            [("user",
              responses.VUser
                (models.User.mk "648a26b07c0d535bb1526e1a" "Test User"
                   "password" "test@example.com" "admin"
                   "649060d540e3b169621e9629" false))])]
  /\ run (controllers.CreateUser (MockDB.database failingLookupDB)
            (post (testUser false))) (start tt)
     = run (controllers.CreateUser (MockDB.database mockDB)
              (post (testUser false))) (start tt).
Proof.
  destruct (C6_lookup_error_swallowed (MockDB.database failingLookupDB)
              (post (testUser false)) (start tt) (testUser false)
              (ErrorString "mock find user by email error") tt
              eq_refl eq_refl) as (_ & Hswallow & Hproceeds).
  split.
  - rewrite (Hproceeds (valid_testUser false)). reflexivity.
  - rewrite Hswallow. reflexivity.
Defined.

(** ** C7: the created record *)

(** C7: the invitation request of the scenario, against any store that finds
    no record for its email and whose create returns an identifier, is answered
    with 201 "success" and a record with the email and the company of the
    request and the 24-character rendering of that identifier; and for every
    request that reaches the 201, the identifier field of the returned record
    is the rendering of the identifier the store returned, which is never
    empty. *)
Theorem C7_created_record
    {St : Type} (DB : configs.Database St) (w : World St)
    (lookupErr : option error) (st1 st2 : St) (id : primitive.ObjectID) :
  configs.FindUserByEmail DB "test@example.com" (store w)
  = ((None, lookupErr), st1) ->
  configs.CreateUser DB
    (recordOf (testUser true)
       (fst (primitive.ObjectIDFromHex "649060d540e3b169621e9629"))) st1
  = ((id, None), st2) ->
  (written (run (controllers.CreateUser DB (post (testUser true))) w)
   = (written w
      ++ [JSON 201
            (responses.mkUserResponse 201 "success"
               [("user",
                 responses.VUser
                   (models.User.mk (primitive.Hex id) "Test User" "password"
                      "test@example.com" "admin" "649060d540e3b169621e9629"
                      true))])])%list
   /\ primitive.Hex id <> "")
  /\ forall (c : gin.Context) (user : User) (w0 : World St)
       (lookupErr0 : option error) (s1 s2 : St)
       (companyId id0 : primitive.ObjectID),
       gin.body c = inl user ->
       valid user ->
       configs.FindUserByEmail DB (models.User.Email user) (store w0)
       = ((None, lookupErr0), s1) ->
       primitive.ObjectIDFromHex (models.User.Company user)
       = (companyId, None) ->
       configs.CreateUser DB (recordOf user companyId) s1 = ((id0, None), s2) ->
       written (run (controllers.CreateUser DB c) w0)
       = (written w0
          ++ [JSON 201
                (responses.mkUserResponse 201 "success"
                   [("user",
                     responses.VUser
                       (models.User.setId user (primitive.Hex id0)))])])%list
       /\ models.User.Id (models.User.setId user (primitive.Hex id0))
          = primitive.Hex id0
       /\ primitive.Hex id0 <> "".
Proof.
  intros Hf Hs. split.
  - split; [|apply Hex_nonempty].
    rewrite (CreateUser_created DB (post (testUser true)) w (testUser true)
               eq_refl eq_refl lookupErr st1 Hf
               (fst (primitive.ObjectIDFromHex "649060d540e3b169621e9629"))
               eq_refl id st2 Hs).
    reflexivity.
  - intros c user w0 lookupErr0 s1 s2 companyId id0 Hb Hv Hf0 Hc Hs0.
    rewrite (CreateUser_created DB c w0 user Hb (valid_ValidateRequest user c Hv)
               lookupErr0 s1 Hf0 companyId Hc id0 s2 Hs0).
    repeat split. apply Hex_nonempty.
Qed.

(** C7 on the mock store of [TestCreateNewUser], which assigns
    [648a26b07c0d535bb1526e1a]. *)
Lemma C7_created_record_witness :
  written (run (controllers.CreateUser (MockDB.database mockDB)
                  (post (testUser true))) (start tt))
  = [JSON 201
       (responses.mkUserResponse 201 "success"
          [("user",
            responses.VUser
              (models.User.mk "648a26b07c0d535bb1526e1a" "Test User" "password"
                 "test@example.com" "admin" "649060d540e3b169621e9629"
                 true))])].
Proof.
  exact (proj1 (proj1
           (C7_created_record (MockDB.database mockDB) (start tt) None tt tt
              mockUserId eq_refl eq_refl))).
Defined.

(** ** C8: the query parameters of the listing *)

(** C8: on [GET /users], a non-empty [email] parameter selects the lookup by
    email, whatever the [company] parameter holds; with [email] absent (or
    empty) and [company] empty or "undefined", the answer is the 400 that says
    the company parameter is missing, and the store is not called. *)
Theorem C8_listing_query_parameters
    {St : Type} (DB : configs.Database St) (c : gin.Context) (w : World St) :
  (gin.Query c "email" <> "" ->
   run (controllers.GetUsers DB c) w
   = run (controllers.FindByEmail DB c (gin.Query c "email")) w
   /\ forall c' : gin.Context,
        gin.Query c' "email" = gin.Query c "email" ->
        run (controllers.GetUsers DB c') w = run (controllers.GetUsers DB c) w)
  /\ (gin.Query c "email" = "" ->
      gin.Query c "company" = "" \/ gin.Query c "company" = "undefined" ->
      run (controllers.GetUsers DB c) w
      = mkWorld (store w) (calls w)
          (written w
           ++ [JSON 400
                 (responses.mkUserResponse 400
                    "Error getting user for a company, Company query parameter is missing"
                    [])])).
Proof.
  assert (Hemail : forall c0 : gin.Context,
             gin.Query c0 "email" <> "" ->
             run (controllers.GetUsers DB c0) w
             = run (controllers.FindByEmail DB c0 (gin.Query c0 "email")) w).
  { intros c0 Hne. unfold run, controllers.GetUsers.
    apply String.eqb_neq in Hne. now rewrite Hne. }
  split.
  - intro Hne. split; [apply Hemail, Hne|].
    intros c' Heq. rewrite !Hemail by congruence.
    rewrite Heq. reflexivity.
  - intros He Hc. unfold run, controllers.GetUsers, gin.JSON.
    rewrite He. simpl.
    destruct Hc as [Hc|Hc]; rewrite Hc; reflexivity.
Qed.

(** C8 on three requests: both parameters given (the email wins and the
    store is asked for that email only), [company=] as in
    [TestErrorFindUsersEmptyCompanyId], and [company=undefined]. *)
Lemma C8_listing_query_parameters_witness :
  calls (run (controllers.GetUsers memory.database
                (getUsers "test@example.com" "649060d540e3b169621e9629"))
           (start twoUserStore))
  = [CallFindUserByEmail "test@example.com"]
  /\ run (controllers.GetUsers memory.database (getUsers "" ""))
       (start twoUserStore)
     = mkWorld twoUserStore []
         [JSON 400
            (responses.mkUserResponse 400
               "Error getting user for a company, Company query parameter is missing"
               [])]
  /\ run (controllers.GetUsers memory.database (getUsers "" "undefined"))
       (start twoUserStore)
     = mkWorld twoUserStore []
         [JSON 400
            (responses.mkUserResponse 400
               "Error getting user for a company, Company query parameter is missing"
               [])].
Proof.
  split; [|split].
  - assert (Hne : gin.Query
                    (getUsers "test@example.com" "649060d540e3b169621e9629")
                    "email" <> "") by discriminate.
    rewrite (proj1 (proj1
               (C8_listing_query_parameters memory.database
                  (getUsers "test@example.com" "649060d540e3b169621e9629")
                  (start twoUserStore)) Hne)).
    reflexivity.
  - exact (proj2
             (C8_listing_query_parameters memory.database (getUsers "" "")
                (start twoUserStore)) eq_refl (or_introl eq_refl)).
  - exact (proj2
             (C8_listing_query_parameters memory.database
                (getUsers "" "undefined") (start twoUserStore))
             eq_refl (or_intror eq_refl)).
Defined.

(** ** C9: passwords on the single-record surfaces *)

(** C9: over the store of the service, when the collection yields a record
    for an identifier, or for a (non-empty) email, the 200 of [FindById], or
    of the lookup by email, carries that record unchanged, password included;
    the 201 of a registration carries the password of the request; and the
    records of the company listing, alone, have the password cleared. *)
Theorem C9_single_record_passwords_returned
    {St : Type} (userCollection : mongo.Collection St) (st : St)
    (userId email : string) (byId byEmail : UserWithCompanyAsObject) :
  let DB := configs.NewMongoDB userCollection in
  mongo.FindOne userCollection
    (mongo.FilterId (fst (primitive.ObjectIDFromHex userId))) st
  = inl byId ->
  email <> "" ->
  mongo.FindOne userCollection (mongo.FilterEmail email) st = inl byEmail ->
  written (run (controllers.FindById DB (getUser userId)) (start st))
  = [JSON 200
       (responses.mkUserResponse 200 "success"
          [("user", responses.VStoredUser (Some byId))])]
  /\ written (run (controllers.GetUsers DB (getUsers email "")) (start st))
     = [JSON 200
          (responses.mkUserResponse 200 "success"
             [("user", responses.VStoredUser (Some byEmail))])]
  /\ (forall (c : gin.Context) (user : User) (w : World St)
        (lookupErr : option error) (s1 s2 : St)
        (companyId id : primitive.ObjectID),
        gin.body c = inl user ->
        valid user ->
        configs.FindUserByEmail DB (models.User.Email user) (store w)
        = ((None, lookupErr), s1) ->
        primitive.ObjectIDFromHex (models.User.Company user)
        = (companyId, None) ->
        configs.CreateUser DB (recordOf user companyId) s1 = ((id, None), s2) ->
        exists returned,
          written (run (controllers.CreateUser DB c) w)
          = (written w
             ++ [JSON 201
                   (responses.mkUserResponse 201 "success"
                      [("user", responses.VUser returned)])])%list
          /\ models.User.Password returned = models.User.Password user)
  /\ forall companyId : primitive.ObjectID,
       Forall scrubbed (fst (fst (configs.FindAllUsers DB companyId st))).
Proof.
  intros DB Hid Hne Hemail.
  split; [|split; [|split]].
  - unfold run, controllers.FindById, bind, call, gin.JSON. simpl.
    unfold configs.MongoDB_FindUserByID. rewrite Hid. reflexivity.
  - unfold run, controllers.GetUsers, controllers.FindByEmail, bind, call,
      gin.JSON. simpl.
    apply String.eqb_neq in Hne. rewrite Hne. simpl.
    unfold configs.MongoDB_FindUserByEmail. rewrite Hemail. reflexivity.
  - intros c user w lookupErr s1 s2 companyId id Hb Hv Hf Hc Hs.
    exists (models.User.setId user (primitive.Hex id)). split; [|reflexivity].
    rewrite (CreateUser_created DB c w user Hb (valid_ValidateRequest user c Hv)
               lookupErr s1 Hf companyId Hc id s2 Hs).
    reflexivity.
  - intro companyId. apply FindAllUsers_scrubbed.
Qed.

(** C9 on the collection of two records: the record found by identifier and
    the one found by email come back with their passwords. *)
Lemma C9_single_record_passwords_returned_witness :
  written (run (controllers.FindById memory.database
                  (getUser "000000000000000000000002")) (start twoUserStore))
  = [JSON 200
       (responses.mkUserResponse 200 "success"
          [("user", responses.VStoredUser (Some janeSmith))])]
  /\ models.UserWithCompanyAsObject.Password janeSmith = "secret"
  /\ written (run (controllers.GetUsers memory.database
                     (getUsers "test@example.com" "")) (start twoUserStore))
     = [JSON 200
          (responses.mkUserResponse 200 "success"
             [("user", responses.VStoredUser (Some storedUser))])]
  /\ models.UserWithCompanyAsObject.Password storedUser = "password".
Proof.
  assert (Hne : "test@example.com" <> "") by discriminate.
  destruct (C9_single_record_passwords_returned memory.collection twoUserStore
              "000000000000000000000002" "test@example.com" janeSmith
              storedUser eq_refl Hne eq_refl) as (H1 & H2 & _).
  split; [exact H1|]. split; [reflexivity|]. split; [exact H2 | reflexivity].
Defined.

(** ** C10: a body that does not bind *)

(** C10: when the body does not bind to a request, [CreateUser] returns at
    once: the store and the call log are as they were, and the only thing
    written is the 400 with which gin's bind layer aborted the request; the
    handler writes no JSON envelope of its own. *)
Theorem C10_unbound_body_returns_at_once
    {St : Type} (DB : configs.Database St) (c : gin.Context) (w : World St)
    (err : error) :
  gin.body c = inr err ->
  let w' := run (controllers.CreateUser DB c) w in
  store w' = store w
  /\ calls w' = calls w
  /\ written w' = (written w ++ [AbortWithError 400 err])%list
  /\ forall code obj, In (JSON code obj) (written w') ->
                      In (JSON code obj) (written w).
Proof.
  intros Hb w'. unfold w'. rewrite (CreateUser_bind_error DB c w err Hb). simpl.
  repeat split.
  intros code obj Hin. apply in_app_or in Hin.
  destruct Hin as [Hin|[Hin|[]]]; [exact Hin | discriminate Hin].
Qed.

(** C10 on [TestCreateUserBindJsonError]: status 400 and nothing else, against
    a store that holds records. *)
Lemma C10_unbound_body_returns_at_once_witness :
  run (controllers.CreateUser memory.database
         (gin.mkContext (inr invalidJSON) (fun _ => "") (fun _ => "")))
    (start twoUserStore)
  = mkWorld twoUserStore [] [AbortWithError 400 invalidJSON].
Proof.
  destruct (C10_unbound_body_returns_at_once memory.database
              (gin.mkContext (inr invalidJSON) (fun _ => "") (fun _ => ""))
              (start twoUserStore) invalidJSON eq_refl) as (Hs & Hc & Hw & _).
  destruct (run _ _) as [s cs ws]. simpl in Hs, Hc, Hw. now subst.
Defined.

(** * Further properties of the handlers *)

(** ** How [CreateUser] answers *)

Ltac answered H :=
  eexists; split; [rewrite H; reflexivity|]; simpl;
  repeat split; auto; eexists; reflexivity.

(** X1: whatever the store does, [CreateUser] writes exactly once per
    request: the abort of the bind layer when the body does not bind, and
    otherwise one JSON envelope whose status field is the HTTP status it is
    sent with, which is 201, 400 or 500. *)
Theorem X1_CreateUser_answers_once
    {St : Type} (DB : configs.Database St) (c : gin.Context) (w : World St) :
  exists wr,
    written (run (controllers.CreateUser DB c) w) = (written w ++ [wr])%list
    /\ match wr with
       | AbortWithError code err =>
           code = http.StatusBadRequest /\ gin.body c = inr err
       | JSON code obj =>
           responses.Status obj = code
           /\ (code = http.StatusCreated \/ code = http.StatusBadRequest
               \/ code = http.StatusInternalServerError)
           /\ exists user, gin.body c = inl user
       end.
Proof.
  destruct (gin.body c) as [user|err] eqn:Hb.
  - destruct (controllers.ValidateRequest user c) as [verr|] eqn:Hv.
    { answered (CreateUser_invalid DB c w user Hb verr Hv). }
    destruct (configs.FindUserByEmail DB (models.User.Email user) (store w))
      as [[[existing|] lookupErr] st1] eqn:Hf.
    { answered (CreateUser_exists DB c w user Hb Hv _ _ _ Hf). }
    destruct (primitive.ObjectIDFromHex (models.User.Company user))
      as [companyId [err2|]] eqn:Hc.
    { answered (CreateUser_bad_company DB c w user Hb Hv _ _ Hf _ _ Hc). }
    destruct (configs.CreateUser DB (recordOf user companyId) st1)
      as [[id [serr|]] st2] eqn:Hs.
    + answered (CreateUser_store_error DB c w user Hb Hv _ _ Hf _ Hc _ _ _ Hs).
    + answered (CreateUser_created DB c w user Hb Hv _ _ Hf _ Hc _ _ Hs).
  - eexists. split; [rewrite (CreateUser_bind_error DB c w err Hb); reflexivity|].
    simpl. auto.
Qed.

(** X2: the calls of a registration. [CreateUser] either calls nothing (the
    body did not bind or the request is not valid), or looks the email of a
    valid request up and stops, or looks it up and then asks the store, once,
    to create a record: one with no identifier, the name, password, email and
    role of the request, and the company its token decodes to. It never calls
    anything else. *)
Theorem X2_CreateUser_calls
    {St : Type} (DB : configs.Database St) (c : gin.Context) (w : World St) :
  let w' := run (controllers.CreateUser DB c) w in
  calls w' = calls w
  \/ exists user,
       gin.body c = inl user /\ valid user
       /\ (calls w'
           = (calls w ++ [CallFindUserByEmail (models.User.Email user)])%list
           \/ exists companyId,
                primitive.ObjectIDFromHex (models.User.Company user)
                = (companyId, None)
                /\ calls w'
                   = (calls w
                      ++ [CallFindUserByEmail (models.User.Email user);
                          CallCreateUser (recordOf user companyId)])%list).
Proof.
  intro w'. unfold w'.
  destruct (gin.body c) as [user|err] eqn:Hb.
  - destruct (controllers.ValidateRequest user c) as [verr|] eqn:Hv.
    { left. now rewrite (CreateUser_invalid DB c w user Hb verr Hv). }
    assert (Hvalid : valid user).
    { apply Struct_None. unfold controllers.ValidateRequest in Hv.
      destruct (validator.Struct user); [discriminate | reflexivity]. }
    right. exists user. split; [reflexivity|]. split; [exact Hvalid|].
    destruct (configs.FindUserByEmail DB (models.User.Email user) (store w))
      as [[[existing|] lookupErr] st1] eqn:Hf.
    { left. now rewrite (CreateUser_exists DB c w user Hb Hv _ _ _ Hf). }
    destruct (primitive.ObjectIDFromHex (models.User.Company user))
      as [companyId [err2|]] eqn:Hc.
    { left.
      now rewrite (CreateUser_bad_company DB c w user Hb Hv _ _ Hf _ _ Hc). }
    right. exists companyId. split; [reflexivity|].
    apply (CreateUser_decoded_calls DB c w user Hb Hv _ _ Hf _ Hc).
  - left. now rewrite (CreateUser_bind_error DB c w err Hb).
Qed.

(** X3: when registration answers 201. The response of [CreateUser] is a 201
    exactly when the body binds to a valid request, the lookup of its email
    returns no record, its company token decodes, and the store's create
    returns no error. *)
Theorem X3_CreateUser_created_iff
    {St : Type} (DB : configs.Database St) (c : gin.Context) (w : World St) :
  (exists obj,
     written (run (controllers.CreateUser DB c) w)
     = (written w ++ [JSON 201 obj])%list)
  <-> exists user lookupErr st1 companyId id st2,
        gin.body c = inl user /\ valid user
        /\ configs.FindUserByEmail DB (models.User.Email user) (store w)
           = ((None, lookupErr), st1)
        /\ primitive.ObjectIDFromHex (models.User.Company user)
           = (companyId, None)
        /\ configs.CreateUser DB (recordOf user companyId) st1
           = ((id, None), st2).
Proof.
  split.
  - intros [obj Hw].
    destruct (gin.body c) as [user|err] eqn:Hb.
    2:{ rewrite (CreateUser_bind_error DB c w err Hb) in Hw. simpl in Hw.
        apply app_inv_head in Hw. discriminate Hw. }
    destruct (controllers.ValidateRequest user c) as [verr|] eqn:Hv.
    { rewrite (CreateUser_invalid DB c w user Hb verr Hv) in Hw. simpl in Hw.
      apply app_inv_head in Hw. discriminate Hw. }
    assert (Hvalid : valid user).
    { apply Struct_None. unfold controllers.ValidateRequest in Hv.
      destruct (validator.Struct user); [discriminate | reflexivity]. }
    destruct (configs.FindUserByEmail DB (models.User.Email user) (store w))
      as [[[existing|] lookupErr] st1] eqn:Hf.
    { rewrite (CreateUser_exists DB c w user Hb Hv _ _ _ Hf) in Hw.
      simpl in Hw. apply app_inv_head in Hw. discriminate Hw. }
    destruct (primitive.ObjectIDFromHex (models.User.Company user))
      as [companyId [err2|]] eqn:Hc.
    { rewrite (CreateUser_bad_company DB c w user Hb Hv _ _ Hf _ _ Hc) in Hw.
      simpl in Hw. apply app_inv_head in Hw. discriminate Hw. }
    destruct (configs.CreateUser DB (recordOf user companyId) st1)
      as [[id [serr|]] st2] eqn:Hs.
    { rewrite (CreateUser_store_error DB c w user Hb Hv _ _ Hf _ Hc _ _ _ Hs)
        in Hw.
      simpl in Hw. apply app_inv_head in Hw. discriminate Hw. }
    exists user, lookupErr, st1, companyId, id, st2. auto.
  - intros (user & lookupErr & st1 & companyId & id & st2
            & Hb & Hvalid & Hf & Hc & Hs).
    eexists.
    rewrite (CreateUser_created DB c w user Hb
               (valid_ValidateRequest user c Hvalid) _ _ Hf _ Hc _ _ Hs).
    reflexivity.
Qed.

(** ** The read handlers *)

(** X4: [FindById] and [GetUsers] (and with it [FindByEmail]) answer every
    request with exactly one JSON envelope, whose status field is the HTTP
    status it is sent with; they make at most one call, and never ask the
    store to create a record. *)
Theorem X4_read_handlers_answer_once
    {St : Type} (DB : configs.Database St) (c : gin.Context) (w : World St) :
  let answersOnce (w' : World St) :=
    (exists code obj,
       written w' = (written w ++ [JSON code obj])%list
       /\ responses.Status obj = code)
    /\ (calls w' = calls w
        \/ exists call,
             calls w' = (calls w ++ [call])%list /\ storeWrites [call] = []) in
  answersOnce (run (controllers.FindById DB c) w)
  /\ answersOnce (run (controllers.GetUsers DB c) w).
Proof.
  intro answersOnce. unfold answersOnce. split.
  - step_handler.
    destruct (configs.FindUserByID DB _ (store w)) as [[found [err|]] st'];
      simpl; (split; [do 2 eexists; split; reflexivity|]);
      right; eexists; split; reflexivity.
  - step_handler.
    destruct (negb (gin.Query c "email" =? "")).
    + destruct (configs.FindUserByEmail DB _ (store w)) as [[found [err|]] st'];
        simpl; (split; [do 2 eexists; split; reflexivity|]);
        right; eexists; split; reflexivity.
    + destruct ((gin.Query c "company" =? "")
                || (gin.Query c "company" =? "undefined")); simpl.
      * split; [do 2 eexists; split; reflexivity | left; reflexivity].
      * destruct (configs.FindAllUsers DB _ (store w))
          as [[users [err|]] st'];
          simpl; (split; [do 2 eexists; split; reflexivity|]);
          right; eexists; split; reflexivity.
Qed.

(** X5: a path parameter that is not an identifier is not rejected:
    [FindById] drops the decoding error and asks the store for the zero
    identifier, so the request is answered as [GET
    /users/000000000000000000000000] would be. *)
Theorem X5_FindById_malformed_id
    {St : Type} (DB : configs.Database St) (c : gin.Context) (w : World St)
    (id : primitive.ObjectID) (err : error) :
  primitive.ObjectIDFromHex (gin.Param c "userId") = (id, Some err) ->
  calls (run (controllers.FindById DB c) w)
  = (calls w ++ [CallFindUserByID primitive.NilObjectID])%list
  /\ run (controllers.FindById DB c) w
     = run (controllers.FindById DB (getUser "000000000000000000000000")) w.
Proof.
  intro Hd. pose proof (ObjectIDFromHex_error _ _ _ Hd) as Hnil. subst id.
  assert (Hrun : forall c0,
             fst (primitive.ObjectIDFromHex (gin.Param c0 "userId"))
             = primitive.NilObjectID ->
             run (controllers.FindById DB c0) w
             = (let '(found, st') :=
                  configs.FindUserByID DB primitive.NilObjectID (store w) in
                mkWorld st' (calls w ++ [CallFindUserByID primitive.NilObjectID])
                  (written w
                   ++ [match snd found with
                       | Some e =>
                           JSON http.StatusInternalServerError
                             (responses.mkUserResponse
                                http.StatusInternalServerError
                                "Error getting a user from database"
                                [("data", responses.VError e)])
                       | None =>
                           JSON http.StatusOK
                             (responses.mkUserResponse http.StatusOK "success"
                                [("user", responses.VStoredUser (fst found))])
                       end])%list)).
  { intros c0 H0. step_handler. rewrite H0.
    destruct (configs.FindUserByID DB primitive.NilObjectID (store w))
      as [[found [e|]] st']; reflexivity. }
  assert (Hc : fst (primitive.ObjectIDFromHex (gin.Param c "userId"))
               = primitive.NilObjectID) by now rewrite Hd.
  split.
  - rewrite (Hrun c Hc).
    now destruct (configs.FindUserByID DB primitive.NilObjectID (store w))
      as [found st'].
  - rewrite (Hrun c Hc), (Hrun (getUser "000000000000000000000000") eq_refl).
    reflexivity.
Qed.

(** X5 on [GET /users/123], the request of [TestErrorFindUserByID], against
    the collection of two records: the store is asked for the zero
    identifier, finds nothing, and the answer is a 500. *)
Lemma X5_FindById_malformed_id_witness :
  run (controllers.FindById memory.database (getUser "123"))
    (start twoUserStore)
  = mkWorld twoUserStore [CallFindUserByID primitive.NilObjectID]
      [JSON 500
         (responses.mkUserResponse 500 "Error getting a user from database"
            [("data", responses.VError mongo.ErrNoDocuments)])].
Proof.
  rewrite (proj2
             (X5_FindById_malformed_id memory.database (getUser "123")
                (start twoUserStore) primitive.NilObjectID ErrInvalidHex
                eq_refl)).
  reflexivity.
Defined.

(** X6: the company listing. With no [email] parameter and a [company]
    parameter that is neither empty nor "undefined", [GetUsers] asks the store
    once, for the identifier the parameter decodes to (the zero identifier
    when it does not decode: a malformed parameter is not a 400). A store
    error gives the 500 "There was a problem trying to find users on database"
    with no data: the error is not passed on, and neither are records returned
    beside it. Otherwise the 200 carries the records as the store returned
    them. *)
Theorem X6_GetUsers_company_listing
    {St : Type} (DB : configs.Database St) (c : gin.Context) (w : World St)
    (users : list UserWithCompanyAsObject) (storeErr : option error)
    (st1 : St) :
  let companyId := fst (primitive.ObjectIDFromHex (gin.Query c "company")) in
  gin.Query c "email" = "" ->
  gin.Query c "company" <> "" ->
  gin.Query c "company" <> "undefined" ->
  configs.FindAllUsers DB companyId (store w) = ((users, storeErr), st1) ->
  run (controllers.GetUsers DB c) w
  = mkWorld st1 (calls w ++ [CallFindAllUsers companyId])
      (written w
       ++ [match storeErr with
           | Some _ =>
               JSON 500
                 (responses.mkUserResponse 500
                    "There was a problem trying to find users on database" [])
           | None =>
               JSON 200
                 (responses.mkUserResponse 200 "success"
                    [("users", responses.VUsers users)])
           end])
  /\ (snd (primitive.ObjectIDFromHex (gin.Query c "company")) <> None ->
      companyId = primitive.NilObjectID).
Proof.
  intros companyId He Hc1 Hc2 Hf. split.
  - step_handler. rewrite He. simpl.
    apply String.eqb_neq in Hc1, Hc2. rewrite Hc1, Hc2. simpl.
    fold companyId. rewrite Hf. destruct storeErr; reflexivity.
  - unfold companyId.
    destruct (primitive.ObjectIDFromHex (gin.Query c "company"))
      as [id [e|]] eqn:Hd; simpl.
    + intros _. apply (ObjectIDFromHex_error _ _ _ Hd).
    + intro H. now contradiction H.
Qed.

(** X6 on [GET /users?company=64dc], the request of
    [TestErrorFindUsersDatabase]: the zero identifier is asked for and the
    500 carries no data. *)
Lemma X6_GetUsers_company_listing_witness :
  run (controllers.GetUsers (MockDB.database failingListingDB)
         (getUsers "" "64dc")) (start tt)
  = mkWorld tt [CallFindAllUsers primitive.NilObjectID]
      [JSON 500
         (responses.mkUserResponse 500
            "There was a problem trying to find users on database" [])].
Proof.
  assert (H1 : gin.Query (getUsers "" "64dc") "company" <> "") by discriminate.
  assert (H2 : gin.Query (getUsers "" "64dc") "company" <> "undefined")
    by discriminate.
  exact (proj1
           (X6_GetUsers_company_listing (MockDB.database failingListingDB)
              (getUsers "" "64dc") (start tt) []
              (Some (ErrorString "mock find all users error")) tt
              eq_refl H1 H2 eq_refl)).
Defined.

(** ** The handlers over the MongoDB store *)

(** X7: the single-record lookups over the MongoDB store. [FindById] and
    [FindByEmail] ask the collection once and leave the store as it was; a
    document that is found is sent back as it is with a 200, and any error of
    the driver, the absence of a matching document included, is sent back with
    a 500. A 200 never carries a null record. *)
Theorem X7_single_lookups_over_MongoDB
    {St : Type} (userCollection : mongo.Collection St) (c : gin.Context)
    (w : World St) (email : string) :
  let DB := configs.NewMongoDB userCollection in
  let id := fst (primitive.ObjectIDFromHex (gin.Param c "userId")) in
  run (controllers.FindById DB c) w
  = mkWorld (store w) (calls w ++ [CallFindUserByID id])
      (written w
       ++ [match mongo.FindOne userCollection (mongo.FilterId id) (store w) with
           | inl user =>
               JSON 200
                 (responses.mkUserResponse 200 "success"
                    [("user", responses.VStoredUser (Some user))])
           | inr err =>
               JSON 500
                 (responses.mkUserResponse 500
                    "Error getting a user from database"
                    [("data", responses.VError err)])
           end])
  /\ run (controllers.FindByEmail DB c email) w
     = mkWorld (store w) (calls w ++ [CallFindUserByEmail email])
         (written w
          ++ [match
                mongo.FindOne userCollection (mongo.FilterEmail email) (store w)
              with
              | inl user =>
                  JSON 200
                    (responses.mkUserResponse 200 "success"
                       [("user", responses.VStoredUser (Some user))])
              | inr err =>
                  JSON 500
                    (responses.mkUserResponse 500
                       "Error getting a user from database with provided email"
                       [("data", responses.VError err)])
              end]).
Proof.
  intros DB id. split.
  - step_handler. fold id. simpl. unfold configs.MongoDB_FindUserByID.
    destruct (mongo.FindOne userCollection (mongo.FilterId id) (store w));
      reflexivity.
  - step_handler. simpl. unfold configs.MongoDB_FindUserByEmail.
    destruct (mongo.FindOne userCollection (mongo.FilterEmail email) (store w));
      reflexivity.
Qed.

(** X8: registration over the MongoDB store. For a valid request whose
    company token decodes, any error of the email lookup, whether no document
    matched or the driver failed, lets the registration go on to the insert;
    the insert's identifier is answered with the 201 and its 24-digit
    rendering, and the insert's error with the 500 "error storing user on
    database"; the store is left as the insert left it. *)
Theorem X8_registration_over_MongoDB
    {St : Type} (userCollection : mongo.Collection St) (c : gin.Context)
    (w : World St) (user : User) (lookupErr : error)
    (companyId : primitive.ObjectID) (inserted : primitive.ObjectID + error)
    (st2 : St) :
  gin.body c = inl user ->
  valid user ->
  mongo.FindOne userCollection (mongo.FilterEmail (models.User.Email user))
    (store w)
  = inr lookupErr ->
  primitive.ObjectIDFromHex (models.User.Company user) = (companyId, None) ->
  mongo.InsertOne userCollection (recordOf user companyId) (store w)
  = (inserted, st2) ->
  run (controllers.CreateUser (configs.NewMongoDB userCollection) c) w
  = mkWorld st2
      (calls w ++ [CallFindUserByEmail (models.User.Email user);
                   CallCreateUser (recordOf user companyId)])
      (written w
       ++ [match inserted with
           | inl id =>
               JSON 201
                 (responses.mkUserResponse 201 "success"
                    [("user",
                      responses.VUser
                        (models.User.setId user (primitive.Hex id)))])
           | inr err =>
               JSON 500
                 (responses.mkUserResponse 500 "error storing user on database"
                    [("data", responses.VError err)])
           end]).
Proof.
  intros Hb Hv Hf Hc Hi.
  pose proof (valid_ValidateRequest user c Hv) as Hv'.
  pose proof (FindUserByEmail_missing userCollection _ _ _ Hf) as Hf'.
  destruct inserted as [id|err].
  - apply (CreateUser_created _ c w user Hb Hv' _ _ Hf' _ Hc id st2).
    simpl. unfold configs.MongoDB_CreateUser. now rewrite Hi.
  - apply (CreateUser_store_error _ c w user Hb Hv' _ _ Hf' _ Hc
             primitive.NilObjectID err st2).
    simpl. unfold configs.MongoDB_CreateUser. now rewrite Hi.
Qed.

(** X8 on the collection in memory: the request of [TestCreateNewUser] is
    stored in the empty collection under the first identifier, and a lookup by
    its email then finds the stored record. *)
Lemma X8_registration_over_MongoDB_witness :
  let w' := run (controllers.CreateUser memory.database (post (testUser false)))
              (start emptyStore) in
  written w'
  = [JSON 201
       (responses.mkUserResponse 201 "success"
          [("user",
            responses.VUser
              (models.User.setId (testUser false)
                 "000000000000000000000001"))])]
  /\ configs.FindUserByEmail memory.database "test@example.com" (store w')
     = ((Some storedUser, None), store w').
Proof.
  intro w'. unfold w'.
  pose proof (X8_registration_over_MongoDB memory.collection
             (post (testUser false)) (start emptyStore) (testUser false)
             mongo.ErrNoDocuments
             (fst (primitive.ObjectIDFromHex "649060d540e3b169621e9629"))
             (inl 1%N) oneUserStore
             eq_refl (valid_testUser false) eq_refl eq_refl eq_refl) as H.
  change (configs.NewMongoDB memory.collection) with memory.database in H.
  rewrite H. split; reflexivity.
Defined.

(** ** The company listing of the store *)

Lemma decodeUsers_inl (ds : list UserWithCompanyAsObject) :
  forall users,
    configs.decodeUsers (map inl ds) users
    = inl (users
           ++ map (fun d => models.UserWithCompanyAsObject.setPassword d "")
                ds)%list.
Proof.
  induction ds as [|d ds IH]; intro users; simpl.
  - now rewrite app_nil_r.
  - rewrite IH, <- app_assoc. reflexivity.
Qed.

Lemma decodeUsers_inv (documents : list (UserWithCompanyAsObject + error)) :
  forall users result,
    configs.decodeUsers documents users = inl result ->
    exists ds,
      documents = map inl ds
      /\ result
         = (users
            ++ map (fun d => models.UserWithCompanyAsObject.setPassword d "")
                 ds)%list.
Proof.
  induction documents as [|[d|err] rest IH]; simpl; intros users result H.
  - inversion H; subst. exists []. simpl. now rewrite app_nil_r.
  - destruct (IH _ _ H) as (ds & -> & ->). exists (d :: ds). simpl.
    now rewrite <- app_assoc.
  - discriminate H.
Qed.

(** X9: [FindAllUsers] of the MongoDB store returns all or nothing. When it
    reports an error it returns no record, even if documents were decoded
    before the failure. When it reports none, either the driver gave no cursor
    and the list is empty, or every document of the cursor decoded, the cursor
    ended without error, and the list has one record per document, in the
    cursor's order, equal to the document but for the emptied password. *)
Theorem X9_FindAllUsers_all_or_nothing
    {St : Type} (userCollection : mongo.Collection St)
    (companyId : primitive.ObjectID) (st : St) :
  let result := configs.MongoDB_FindAllUsers userCollection companyId st in
  let found := mongo.Find userCollection (mongo.FilterCompany companyId) st in
  snd result = st
  /\ match snd (fst result) with
     | Some _ => fst (fst result) = []
     | None =>
         (found = (None, None) /\ fst (fst result) = [])
         \/ exists cursor ds,
              found = (Some cursor, None)
              /\ mongo.documents cursor = map inl ds
              /\ mongo.Err cursor = None
              /\ fst (fst result)
                 = map (fun d =>
                          models.UserWithCompanyAsObject.setPassword d "") ds
     end.
Proof.
  intros result found. unfold result, configs.MongoDB_FindAllUsers. fold found.
  destruct found as [[cursor|] [err|]]; simpl; auto.
  destruct (configs.decodeUsers (mongo.documents cursor) []) as [users|err]
    eqn:Hd; simpl; auto.
  destruct (mongo.Err cursor) eqn:He; simpl; auto.
  split; [reflexivity|]. right.
  destruct (decodeUsers_inv _ _ _ Hd) as (ds & Hdocs & ->).
  exists cursor, ds. auto.
Qed.

(** ** Identifiers between the handlers *)

Lemma Decode_app (s1 s2 : string) :
  forall acc,
    hex.Decode (s1 ++ s2) acc
    = match hex.Decode s1 acc with
      | inl acc' => hex.Decode s2 acc'
      | inr err => inr err
      end.
Proof.
  induction s1 as [|ch s1 IH]; intro acc; simpl; [reflexivity|].
  destruct (hex.fromHexChar ch); [apply IH | reflexivity].
Qed.

Lemma fromHexChar_hextable (d : N) :
  (d < 16)%N ->
  hex.fromHexChar (nth (N.to_nat d) hex.hextable "0"%char) = Some d.
Proof.
  intro Hd.
  destruct d as [|p]; [reflexivity|].
  do 4 (destruct p as [p|p|]; try reflexivity; try lia).
Qed.

(** Decoding the [k] digits of [n] reads [n] back, up to [16^k]. *)
Lemma Decode_Encode (k : nat) :
  forall n acc,
    hex.Decode (hex.Encode k n) acc
    = inl (acc * 16 ^ N.of_nat k + n mod 16 ^ N.of_nat k)%N.
Proof.
  induction k as [|k IH]; intros n acc.
  - cbn [hex.Encode hex.Decode]. change (N.of_nat 0) with 0%N.
    rewrite N.pow_0_r, N.mod_1_r. f_equal. lia.
  - cbn [hex.Encode]. rewrite Decode_app, IH. cbn [hex.Decode].
    rewrite fromHexChar_hextable by (apply N.mod_lt; discriminate).
    f_equal. rewrite Nat2N.inj_succ, N.pow_succ_r'.
    rewrite (N.Div0.mod_mul_r n 16 (16 ^ N.of_nat k)).
    generalize (16 ^ N.of_nat k)%N as p. intro p.
    generalize ((n / 16) mod p)%N as q. intro q. lia.
Qed.

(** X10: the identifier that registration hands out leads back to the
    record. The 24 digits that [CreateUser] renders a 12-byte identifier as
    decode to that identifier, so when they come back as the path parameter of
    [GET /users/:userId], [FindById] asks the store for exactly the identifier
    the store had assigned. *)
Theorem X10_registered_id_is_found
    {St : Type} (DB : configs.Database St) (c : gin.Context) (w : World St)
    (user : User) (id : primitive.ObjectID) :
  (id < 2 ^ 96)%N ->
  gin.Param c "userId"
  = models.User.Id (models.User.setId user (primitive.Hex id)) ->
  primitive.ObjectIDFromHex (primitive.Hex id) = (id, None)
  /\ calls (run (controllers.FindById DB c) w)
     = (calls w ++ [CallFindUserByID id])%list.
Proof.
  intros Hid Hparam.
  assert (Hround : primitive.ObjectIDFromHex (primitive.Hex id) = (id, None)).
  { unfold primitive.ObjectIDFromHex.
    rewrite Hex_length. cbn [Nat.eqb].
    unfold primitive.Hex. rewrite Decode_Encode.
    change (16 ^ N.of_nat 24)%N with (2 ^ 96)%N.
    rewrite N.mod_small by exact Hid. reflexivity. }
  split; [exact Hround|].
  unfold run, controllers.FindById, bind, call, gin.JSON.
  rewrite Hparam. cbn [models.User.Id models.User.setId].
  rewrite Hround. cbn [fst].
  now destruct (configs.FindUserByID DB id (store w)) as [[found [err|]] st'].
Qed.

(** X10 on the first identifier of the collection in memory, under which the
    request of [TestCreateNewUser] is registered there. *)
Lemma X10_registered_id_is_found_witness :
  primitive.ObjectIDFromHex (primitive.Hex 1%N) = (1%N, None)
  /\ calls (run (controllers.FindById memory.database
                   (getUser "000000000000000000000001")) (start oneUserStore))
     = [CallFindUserByID 1%N].
Proof.
  assert (Hid : (1 < 2 ^ 96)%N) by reflexivity.
  exact (X10_registered_id_is_found memory.database
           (getUser "000000000000000000000001") (start oneUserStore)
           (testUser false) 1%N Hid eq_refl).
Defined.

(** * The revision that provisions companies *)

Ltac step_panicking :=
  unfold provisioning.CreateUser, bindP, lift, panic, ret, gin.BindJSON,
    call, gin.JSON.

Section Provisioning.

Context {St : Type}.
Variable Getenv : string -> string.
Variable urlParses : string -> bool.
Variable Unmarshal : string -> json.Map + error.
Variable Client : nethttp.HTTPClient St.
Variable DB : configs.Database St.

Let CreateCompany := provisioning.CreateCompany Getenv urlParses Unmarshal Client.
Let CreateUser := provisioning.CreateUser Getenv urlParses Unmarshal Client DB.

(** What [CreateCompany] does to the world: nothing is written, and at most
    the one request is added to the calls. *)
Lemma CreateCompany_effects (company : string) (w : World St) :
  let request := companyRequest Getenv company in
  let w' := snd (CreateCompany company w) in
  written w' = written w
  /\ if urlParses (Getenv "COMPANY_SERVICE_URL") then
       calls w'
       = (calls w
          ++ [CallClientDo (nethttp.Method request) (nethttp.URL request)
                (nethttp.Body request)])%list
     else calls w' = calls w /\ fst (CreateCompany company w) = None.
Proof.
  intros request w'.
  unfold w', CreateCompany, provisioning.CreateCompany.
  destruct (urlParses (Getenv "COMPANY_SERVICE_URL")); simpl; [|auto].
  destruct (nethttp.Do Client _ (store w)) as [[[resp|] [err|]] st'];
    simpl; auto.
  destruct (nethttp.ResponseBody resp) as [[bodyBytes|err]|]; simpl; auto.
  destruct (Unmarshal bodyBytes) as [responseMap|err]; simpl; auto.
  destruct (json.notNil (json.index responseMap "error")).
  - destruct (json.index responseMap "message"); simpl; auto.
  - destruct (json.index responseMap "id"); simpl; auto.
Qed.

Lemma CreateCompany_calls (company : string) (w : World St) :
  let w' := snd (CreateCompany company w) in
  written w' = written w
  /\ (calls w' = calls w
      \/ exists method url body,
           calls w' = (calls w ++ [CallClientDo method url body])%list).
Proof.
  intro w'. destruct (CreateCompany_effects company w) as [Hw Hc].
  split; [exact Hw|].
  destruct (urlParses (Getenv "COMPANY_SERVICE_URL")).
  - right. eauto.
  - left. apply Hc.
Qed.


Lemma persisted_calls (user : User) (companyId : primitive.ObjectID)
    (w : World St) :
  calls (persisted DB user companyId w)
  = (calls w ++ [CallCreateUser (recordOf user companyId)])%list.
Proof.
  unfold persisted.
  now destruct (configs.CreateUser DB (recordOf user companyId) (store w))
    as [[id err] st'].
Qed.

Section Bound.

Variable c : gin.Context.
Variable user : User.
Hypothesis bound : gin.body c = inl user.
Hypothesis validated : controllers.ValidateRequest user c = None.

Lemma provisioning_CreateUser_invited (w : World St) :
  models.User.Invitation user = true ->
  CreateUser c w
  = match primitive.ObjectIDFromHex (models.User.Company user) with
    | (_, Some _) => (None, w)
    | (companyId, None) => (Some tt, persisted DB user companyId w)
    end.
Proof.
  intro Hi. unfold CreateUser. step_panicking. rewrite bound, validated, Hi.
  cbv beta iota. unfold persisted.
  destruct (primitive.ObjectIDFromHex (models.User.Company user))
    as [companyId [err2|]]; [reflexivity|].
  fold (recordOf user companyId).
  destruct (configs.CreateUser DB (recordOf user companyId) (store w))
    as [[id [err|]] st']; reflexivity.
Qed.

Lemma provisioning_CreateUser_founding (w : World St) :
  models.User.Invitation user = false ->
  CreateUser c w
  = match CreateCompany (models.User.Company user) w with
    | (None, w1) => (None, w1)
    | (Some (_, Some err), w1) =>
        (Some tt,
         mkWorld (store w1) (calls w1)
           (written w1
            ++ [JSON http.StatusInternalServerError
                  (responses.mkUserResponse http.StatusInternalServerError
                     "company error" [("data", responses.VError err)])]))
    | (Some (companyIdStr, None), w1) =>
        match primitive.ObjectIDFromHex companyIdStr with
        | (_, Some _) => (None, w1)
        | (companyId, None) => (Some tt, persisted DB user companyId w1)
        end
    end.
Proof.
  intro Hi. unfold CreateUser. step_panicking. rewrite bound, validated, Hi.
  fold CreateCompany. cbv beta iota. unfold persisted.
  destruct (CreateCompany (models.User.Company user) w)
    as [[[companyIdStr [err|]]|] w1]; try reflexivity.
  cbv beta iota. cbn [fst snd].
  destruct (primitive.ObjectIDFromHex companyIdStr)
    as [companyId [err2|]]; [reflexivity|].
  fold (recordOf user companyId).
  destruct (configs.CreateUser DB (recordOf user companyId) (store w1))
    as [[id [err|]] st']; reflexivity.
Qed.

End Bound.

Lemma notNil_false (v : json.Value) : json.notNil v = false <-> v = json.JNull.
Proof. destruct v; simpl; split; intro H; congruence. Qed.

(** X12: [CreateCompany] makes exactly one request when the configured URL
    parses: a POST to [COMPANY_SERVICE_URL] whose body holds the company name
    as it was given, unescaped, inside the text of a JSON object. When the URL
    does not parse it makes none, and panics. It never writes to the
    response. *)
Theorem X12_CreateCompany_one_post (company : string) (w : World St) :
  let request := companyRequest Getenv company in
  let w' :=
    snd (provisioning.CreateCompany Getenv urlParses Unmarshal Client company
           w) in
  written w' = written w
  /\ (if urlParses (Getenv "COMPANY_SERVICE_URL") then
        calls w'
        = (calls w
           ++ [CallClientDo "POST" (Getenv "COMPANY_SERVICE_URL")
                 (nethttp.Body request)])%list
      else
        calls w' = calls w
        /\ fst (provisioning.CreateCompany Getenv urlParses Unmarshal Client
                  company w)
           = None)
  /\ nethttp.Body request
     = "{" ++ quote ++ "name" ++ quote ++ ":" ++ quote ++ company ++ quote
         ++ "}".
Proof.
  intros request w'.
  destruct (CreateCompany_effects company w) as [Hw Hc].
  split; [exact Hw|]. split; [|reflexivity].
  unfold w'. fold CreateCompany.
  destruct (urlParses (Getenv "COMPANY_SERVICE_URL")); exact Hc.
Qed.

(** X13: when [CreateCompany] returns an identifier. It returns
    [(id, nil)] exactly when the URL parses, [Do] gives a response and no
    error, the body reads and unmarshals to a map whose ["error"] entry is
    nil and whose ["id"] entry is the string [id]. The status code of the
    response plays no part, and the identifier is not examined. Whenever it
    returns an error, the string beside it is empty. *)
Theorem X13_CreateCompany_returns_id_iff (company : string) (w : World St) :
  (forall id,
     fst (CreateCompany company w) = Some (id, None)
     <-> urlParses (Getenv "COMPANY_SERVICE_URL") = true
         /\ exists resp st' bodyBytes responseMap,
              nethttp.Do Client (companyRequest Getenv company) (store w)
              = ((Some resp, None), st')
              /\ nethttp.ResponseBody resp = Some (inl bodyBytes)
              /\ Unmarshal bodyBytes = inl responseMap
              /\ json.index responseMap "error" = json.JNull
              /\ json.index responseMap "id" = json.JString id)
  /\ match fst (CreateCompany company w) with
     | Some (s, Some _) => s = ""
     | _ => True
     end.
Proof.
  unfold CreateCompany, provisioning.CreateCompany.
  fold (companyRequest Getenv company).
  destruct (urlParses (Getenv "COMPANY_SERVICE_URL")) eqn:Hu; simpl.
  2:{ split; [|exact I]. intro id. split; [discriminate|].
      intros [H _]. discriminate H. }
  destruct (nethttp.Do Client (companyRequest Getenv company) (store w))
    as [[resp err] st'] eqn:Hdo.
  destruct err as [err|]; simpl.
  { split; [|reflexivity]. intro id. split; [discriminate|].
    intros (_ & resp' & st'' & b & m & H & _). discriminate H. }
  destruct resp as [resp|]; simpl.
  2:{ split; [|exact I]. intro id. split; [discriminate|].
      intros (_ & resp' & st'' & b & m & H & _). discriminate H. }
  destruct (nethttp.ResponseBody resp) as [[bodyBytes|err]|] eqn:Hr; simpl.
  2:{ split; [|reflexivity]. intro id. split; [discriminate|].
      intros (_ & resp' & st'' & b & m & H & Hr' & _).
      inversion H; subst. congruence. }
  2:{ split; [|exact I]. intro id. split; [discriminate|].
      intros (_ & resp' & st'' & b & m & H & Hr' & _).
      inversion H; subst. congruence. }
  destruct (Unmarshal bodyBytes) as [responseMap|err] eqn:Hun; simpl.
  2:{ split; [|reflexivity]. intro id. split; [discriminate|].
      intros (_ & resp' & st'' & b & m & H & Hr' & Hun' & _).
      inversion H; subst. congruence. }
  destruct (json.notNil (json.index responseMap "error")) eqn:He.
  - assert (Hne : json.index responseMap "error" <> json.JNull).
    { intro E. apply notNil_false in E. congruence. }
    assert (Hback : forall id,
               (True /\ exists resp' st'' b m,
                   (Some resp, @None error, st') = (Some resp', None, st'')
                   /\ nethttp.ResponseBody resp' = Some (inl b)
                   /\ Unmarshal b = inl m
                   /\ json.index m "error" = json.JNull
                   /\ json.index m "id" = json.JString id) -> False).
    { intros id (_ & resp' & st'' & b & m & H & Hr' & Hun' & He' & _).
      inversion H; subst. congruence. }
    destruct (json.index responseMap "message") as [|jb|lit|s|items|fields];
      simpl;
      (split; [|exact I || reflexivity]); intro id;
      (split; [discriminate|]); intro H; exfalso; apply (Hback id);
      (split; [exact I|]); apply H.
  - apply notNil_false in He.
    destruct (json.index responseMap "id") as [|jb|lit|s|items|fields] eqn:Hi;
      simpl;
      (split; [|exact I || reflexivity]); intro id;
      (split;
       [intro H; try discriminate H
       |intros (_ & resp' & st'' & b & m & H & Hr' & Hun' & He' & Hi');
        inversion H; subst; try congruence]).
    inversion H; subst. split; [reflexivity|].
    exists resp, st', bodyBytes, responseMap. auto.
Qed.

(** X14: when [CreateCompany] panics. It panics exactly when the URL does
    not parse (the request is nil), or [Do] returns neither a response nor an
    error, or it returns a response whose [Body] is nil, or the body
    unmarshals to a map whose ["error"] entry is not nil while its
    ["message"] entry is not a string. *)
Theorem X14_CreateCompany_panics_iff (company : string) (w : World St) :
  let request := companyRequest Getenv company in
  fst (CreateCompany company w) = None
  <-> urlParses (Getenv "COMPANY_SERVICE_URL") = false
      \/ (urlParses (Getenv "COMPANY_SERVICE_URL") = true
          /\ ((exists st',
                 nethttp.Do Client request (store w) = ((None, None), st'))
              \/ (exists resp st',
                    nethttp.Do Client request (store w)
                    = ((Some resp, None), st')
                    /\ nethttp.ResponseBody resp = None)
              \/ exists resp st' bodyBytes responseMap,
                   nethttp.Do Client request (store w)
                   = ((Some resp, None), st')
                   /\ nethttp.ResponseBody resp = Some (inl bodyBytes)
                   /\ Unmarshal bodyBytes = inl responseMap
                   /\ json.index responseMap "error" <> json.JNull
                   /\ forall message,
                        json.index responseMap "message"
                        <> json.JString message)).
Proof.
  intro request.
  unfold CreateCompany, provisioning.CreateCompany.
  fold (companyRequest Getenv company). fold request.
  destruct (urlParses (Getenv "COMPANY_SERVICE_URL")) eqn:Hu; simpl.
  2:{ split; auto. }
  destruct (nethttp.Do Client request (store w)) as [[resp err] st'] eqn:Hdo.
  destruct err as [err|]; simpl.
  { split; [discriminate|].
    intros [H|[_ [[st'' H]|[(resp' & st'' & H & _)
                           |(resp' & st'' & b & m & H & _)]]]];
      discriminate H. }
  destruct resp as [resp|]; simpl.
  2:{ split; [|reflexivity]. intros _. right. split; [reflexivity|].
      left. now exists st'. }
  destruct (nethttp.ResponseBody resp) as [[bodyBytes|err]|] eqn:Hr; simpl.
  2:{ split; [discriminate|].
      intros [H|[_ [[st'' H]|[(resp' & st'' & H & Hr')
                             |(resp' & st'' & b & m & H & Hr' & _)]]]];
        try discriminate H; inversion H; subst; congruence. }
  2:{ split; [|reflexivity]. intros _. right. split; [reflexivity|].
      right. left. exists resp, st'. now split. }
  destruct (Unmarshal bodyBytes) as [responseMap|err] eqn:Hun; simpl.
  2:{ split; [discriminate|].
      intros [H|[_ [[st'' H]|[(resp' & st'' & H & Hr')
                             |(resp' & st'' & b & m & H & Hr' & Hun' & _)]]]];
        try discriminate H; inversion H; subst; congruence. }
  destruct (json.notNil (json.index responseMap "error")) eqn:He.
  - assert (Hne : json.index responseMap "error" <> json.JNull).
    { intro E. apply notNil_false in E. congruence. }
    destruct (json.index responseMap "message")
      as [|jb|lit|s|items|fields] eqn:Hm; simpl;
      (split;
       [intro H;
        first
          [ discriminate H
          | right; split; [reflexivity|]; right; right;
            exists resp, st', bodyBytes, responseMap;
            repeat split; try assumption; intros message; rewrite Hm;
            discriminate ]
       |intros [H|[_ [[st'' H]|[(resp' & st'' & H & Hr')
                              |(resp' & st'' & b & m & H & Hr' & Hun' & He'
                                & Hm')]]]];
        try discriminate H; try reflexivity]).
    + inversion H; subst. congruence.
    + inversion H; subst.
      assert (m = responseMap) by congruence. subst m.
      exfalso. apply (Hm' s). exact Hm.
  - apply notNil_false in He.
    destruct (json.index responseMap "id") as [|jb|lit|s|items|fields];
      simpl;
      (split;
       [discriminate
       |intros [H|[_ [[st'' H]|[(resp' & st'' & H & Hr')
                              |(resp' & st'' & b & m & H & Hr' & Hun' & He'
                                & _)]]]];
        try discriminate H; inversion H; subst;
        first [congruence
              |assert (m = responseMap) by congruence; subst m;
               contradiction]]).
Qed.

(** X15: the calls of a registration in the provisioning revision. The
    handler never looks a record up: there is no check that the email is
    free. It calls the company service at most once and the store's create at
    most once, the company service first. *)
Theorem X15_provisioning_CreateUser_calls (c : gin.Context) (w : World St) :
  let w' := snd (CreateUser c w) in
  exists cs,
    calls w' = (calls w ++ cs)%list
    /\ storeLookups cs = []
    /\ (cs = []
        \/ (exists method url body, cs = [CallClientDo method url body])
        \/ (exists record, cs = [CallCreateUser record])
        \/ exists method url body record,
             cs = [CallClientDo method url body; CallCreateUser record]).
Proof.
  intro w'. unfold w'.
  assert (Hnone : exists cs,
             calls w = (calls w ++ cs)%list
             /\ storeLookups cs = []
             /\ (cs = []
                 \/ (exists method url body, cs = [CallClientDo method url body])
                 \/ (exists record, cs = [CallCreateUser record])
                 \/ exists method url body record,
                      cs = [CallClientDo method url body;
                            CallCreateUser record])).
  { exists []. rewrite app_nil_r. auto. }
  destruct (gin.body c) as [user|err] eqn:Hb.
  2:{ unfold CreateUser. step_panicking. rewrite Hb. exact Hnone. }
  destruct (controllers.ValidateRequest user c) as [verr|] eqn:Hv.
  { unfold CreateUser. step_panicking. rewrite Hb, Hv. exact Hnone. }
  destruct (models.User.Invitation user) eqn:Hi.
  - rewrite (provisioning_CreateUser_invited c user Hb Hv w Hi).
    destruct (primitive.ObjectIDFromHex (models.User.Company user))
      as [companyId [err2|]]; [exact Hnone|].
    cbn [snd]. rewrite persisted_calls.
    eexists. split; [reflexivity|]. split; [reflexivity|]. eauto.
  - rewrite (provisioning_CreateUser_founding c user Hb Hv w Hi).
    destruct (CreateCompany_calls (models.User.Company user) w) as [_ Hc].
    destruct (CreateCompany (models.User.Company user) w)
      as [[[companyIdStr [err|]]|] w1]; cbn [snd] in *.
    + destruct Hc as [Hc|(m & u & b & Hc)]; rewrite Hc.
      * exact Hnone.
      * eexists. split; [reflexivity|]. split; [reflexivity|]. eauto 6.
    + destruct (primitive.ObjectIDFromHex companyIdStr)
        as [companyId [err2|]]; cbn [snd].
      * destruct Hc as [Hc|(m & u & b & Hc)]; rewrite Hc.
        -- exact Hnone.
        -- eexists. split; [reflexivity|]. split; [reflexivity|]. eauto 6.
      * rewrite persisted_calls.
        destruct Hc as [Hc|(m & u & b & Hc)]; rewrite Hc.
        -- eexists. split; [reflexivity|]. split; [reflexivity|]. eauto 6.
        -- rewrite <- app_assoc. eexists. split; [reflexivity|].
           split; [reflexivity|]. right. right. right.
           do 4 eexists. reflexivity.
    + destruct Hc as [Hc|(m & u & b & Hc)]; rewrite Hc.
      * exact Hnone.
      * eexists. split; [reflexivity|]. split; [reflexivity|]. eauto 6.
Qed.

(** X16: a company identifier that does not decode makes this revision
    panic. The handler builds its 500 from the validation error, which is nil
    by then: for a valid invitation whose token does not decode it panics
    before any call or response; for a valid request that is not an invitation
    it panics when the identifier that [CreateCompany] returned does not
    decode, after the company has been provisioned and with no response
    written. *)
Theorem X16_provisioning_panics_on_undecodable_identifier
    (c : gin.Context) (user : User) (w : World St) :
  gin.body c = inl user ->
  valid user ->
  (models.User.Invitation user = true ->
   snd (primitive.ObjectIDFromHex (models.User.Company user)) <> None ->
   provisioning.CreateUser Getenv urlParses Unmarshal Client DB c w = (None, w))
  /\ (models.User.Invitation user = false ->
      forall (companyIdStr : string) (w1 : World St),
        provisioning.CreateCompany Getenv urlParses Unmarshal Client
          (models.User.Company user) w
        = (Some (companyIdStr, None), w1) ->
        snd (primitive.ObjectIDFromHex companyIdStr) <> None ->
        provisioning.CreateUser Getenv urlParses Unmarshal Client DB c w
        = (None, w1)
        /\ written w1 = written w).
Proof.
  intros Hb Hv. pose proof (valid_ValidateRequest user c Hv) as Hv'.
  fold CreateUser. fold CreateCompany. split.
  - intros Hi Hd. rewrite (provisioning_CreateUser_invited c user Hb Hv' w Hi).
    destruct (primitive.ObjectIDFromHex (models.User.Company user))
      as [id [err2|]]; [reflexivity | now contradiction Hd].
  - intros Hi companyIdStr w1 Hcc Hd.
    rewrite (provisioning_CreateUser_founding c user Hb Hv' w Hi), Hcc.
    split.
    + destruct (primitive.ObjectIDFromHex companyIdStr) as [id [err2|]];
        [reflexivity | now contradiction Hd].
    + pose proof (proj1 (CreateCompany_effects (models.User.Company user) w))
        as Hw.
      now rewrite Hcc in Hw.
Qed.

(** X17: founding a company in the provisioning revision. For a valid
    request that is not an invitation, when [CreateCompany] returns an
    identifier that decodes, the store is asked to create the record with the
    decoded identifier as its company; a 201 returns the request with its
    identifier set and its company field still the company name, and a store
    error is answered with the 500 "error creating a user", the company having
    been provisioned all the same. *)
Theorem X17_provisioning_founds_then_stores
    (c : gin.Context) (user : User) (w w1 : World St) (companyIdStr : string)
    (companyId id : primitive.ObjectID) (storeErr : option error) (st2 : St) :
  gin.body c = inl user ->
  valid user ->
  models.User.Invitation user = false ->
  provisioning.CreateCompany Getenv urlParses Unmarshal Client
    (models.User.Company user) w
  = (Some (companyIdStr, None), w1) ->
  primitive.ObjectIDFromHex companyIdStr = (companyId, None) ->
  configs.CreateUser DB (recordOf user companyId) (store w1)
  = ((id, storeErr), st2) ->
  provisioning.CreateUser Getenv urlParses Unmarshal Client DB c w
  = (Some tt,
     mkWorld st2 (calls w1 ++ [CallCreateUser (recordOf user companyId)])
       (written w
        ++ [match storeErr with
            | Some err =>
                JSON 500
                  (responses.mkUserResponse 500 "error creating a user"
                     [("data", responses.VError err)])
            | None =>
                JSON 201
                  (responses.mkUserResponse 201 "success"
                     [("user",
                       responses.VUser
                         (models.User.setId user (primitive.Hex id)))])
            end]))
  /\ models.UserWithCompanyAsObject.Company (recordOf user companyId)
     = companyId
  /\ models.User.Company (models.User.setId user (primitive.Hex id))
     = models.User.Company user
  /\ provisionerCalls (calls w1) = (provisionerCalls (calls w) ++
       [CallClientDo "POST" (Getenv "COMPANY_SERVICE_URL")
          (nethttp.Body (companyRequest Getenv (models.User.Company user)))])%list.
Proof.
  intros Hb Hv Hi Hcc Hdec Hs.
  pose proof (valid_ValidateRequest user c Hv) as Hv'.
  fold CreateUser. fold CreateCompany in Hcc.
  destruct (CreateCompany_effects (models.User.Company user) w) as [Hw Hc].
  rewrite Hcc in Hw, Hc. cbn [snd fst] in Hw, Hc.
  split; [|split; [reflexivity|split; [reflexivity|]]].
  - rewrite (provisioning_CreateUser_founding c user Hb Hv' w Hi), Hcc, Hdec.
    unfold persisted. rewrite Hs, Hw. reflexivity.
  - destruct (urlParses (Getenv "COMPANY_SERVICE_URL")).
    + rewrite Hc. unfold provisionerCalls. rewrite filter_app. reflexivity.
    + destruct Hc as [_ Hc]. discriminate Hc.
Qed.

End Provisioning.

(** X16 on an invitation with the malformed token of [TestErrorWrongObjectId],
    and on a founder whose company service answers with the identifier
    [mockedCompanyID]: both panic, the second after the POST. *)
Lemma X16_provisioning_panics_on_undecodable_identifier_witness :
  let bad :=
    models.User.mk "" "Test User" "password" "test@example.com" "admin"
      "606d97b4c1bea43ce49be6dc_!WorngId" true in
  let CreateUser id :=
    provisioning.CreateUser testGetenv (fun _ => true) (testUnmarshal id)
      (mockClient id) (MockDB.database mockDB) in
  CreateUser "6477c1b6f7122e3b1d204917" (post bad) (start tt)
  = (None, start tt)
  /\ CreateUser "mockedCompanyID" (post founder) (start tt)
     = (None,
        mkWorld tt
          [CallClientDo "POST" companyServiceURL
             (nethttp.Body (companyRequest testGetenv "Test Company"))]
          []).
Proof.
  intros bad CreateUser.
  assert (Hbad : valid bad).
  { unfold valid, bad; simpl. repeat split; discriminate. }
  assert (Hfounder : valid founder).
  { unfold valid, founder; simpl. repeat split; discriminate. }
  split.
  - apply (proj1
             (X16_provisioning_panics_on_undecodable_identifier testGetenv
                (fun _ => true) (testUnmarshal "6477c1b6f7122e3b1d204917")
                (mockClient "6477c1b6f7122e3b1d204917") (MockDB.database mockDB)
                (post bad) bad (start tt) eq_refl Hbad)).
    + reflexivity.
    + discriminate.
  - apply (proj2
             (X16_provisioning_panics_on_undecodable_identifier testGetenv
                (fun _ => true) (testUnmarshal "mockedCompanyID")
                (mockClient "mockedCompanyID") (MockDB.database mockDB)
                (post founder) founder (start tt) eq_refl Hfounder)
             eq_refl "mockedCompanyID").
    + reflexivity.
    + discriminate.
Defined.

(** X17 on the older [TestCreateNewUser]: the company service answers with
    [6477c1b6f7122e3b1d204917], the mock store assigns
    [648a26b07c0d535bb1526e1a], and the 201 returns the company name. *)
Lemma X17_provisioning_founds_then_stores_witness :
  provisioning.CreateUser testGetenv (fun _ => true)
    (testUnmarshal "6477c1b6f7122e3b1d204917")
    (mockClient "6477c1b6f7122e3b1d204917") (MockDB.database mockDB)
    (post founder) (start tt)
  = (Some tt,
     mkWorld tt
       [CallClientDo "POST" companyServiceURL
          (nethttp.Body (companyRequest testGetenv "Test Company"));
        CallCreateUser
          (recordOf founder
             (fst (primitive.ObjectIDFromHex "6477c1b6f7122e3b1d204917")))]
       [JSON 201
          (responses.mkUserResponse 201 "success"
             [("user",
               responses.VUser
                 (models.User.mk "648a26b07c0d535bb1526e1a" "Test User"
                    "password" "test@example.com" "admin" "Test Company"
                    false))])]).
Proof.
  assert (Hfounder : valid founder).
  { unfold valid, founder; simpl. repeat split; discriminate. }
  exact (proj1
           (X17_provisioning_founds_then_stores testGetenv (fun _ => true)
              (testUnmarshal "6477c1b6f7122e3b1d204917")
              (mockClient "6477c1b6f7122e3b1d204917") (MockDB.database mockDB)
              (post founder) founder (start tt)
              (mkWorld tt
                 [CallClientDo "POST" companyServiceURL
                    (nethttp.Body (companyRequest testGetenv "Test Company"))]
                 [])
              "6477c1b6f7122e3b1d204917"
              (fst (primitive.ObjectIDFromHex "6477c1b6f7122e3b1d204917"))
              mockUserId None tt eq_refl Hfounder eq_refl eq_refl eq_refl
              eq_refl)).
Defined.

(** ** C1: registration without an invitation *)



